(** * Chat Logger extension: a model of [framework.js] and its properties

    The extension keeps a hidden [div] in the page, wraps the host's
    [UI.addChatLine] so that every chat line is also stored as a child
    [div] carrying four [data-*] attributes, and offers two menu actions:
    download the stored lines as a text file, and clear them.

    The model follows the source function by function.  JavaScript values,
    the few string and [Date] methods the source calls, and the fragment
    of the DOM it touches come first; the [ChatLogger] object follows, as
    programs of a state monad over the page; the properties come last. *)

From Stdlib Require Import List String Ascii ZArith Lia Bool Arith DecimalString Sorted.
Import ListNotations.
Local Open Scope string_scope.
Local Open Scope list_scope.

#[local] Set Warnings "-register-all".

(** ** JavaScript values *)

(** The numbers of the model are the safe integers, from -(2^53 - 1) to
    2^53 - 1: every one of them is a Number, and prints as its decimal
    digits.  Other numbers (fractions, larger magnitudes, [NaN]) are not
    modelled. *)
Record SafeInteger : Type := mkSafeInteger {
  integer : Z;
  inRange : (Z.abs integer <=? 9007199254740991)%Z = true
}.

Definition safeOfZ (z : Z) : option SafeInteger :=
  match (Z.abs z <=? 9007199254740991)%Z as b
        return ((Z.abs z <=? 9007199254740991)%Z = b -> option SafeInteger) with
  | true => fun H => Some (mkSafeInteger z H)
  | false => fun _ => None
  end eq_refl.

Declare Scope safe_scope.
Delimit Scope safe_scope with safe.
Bind Scope safe_scope with SafeInteger.
Number Notation SafeInteger safeOfZ integer : safe_scope.

Module JS.

(** The values the extension can be handed.  [Num n] is the number with
    the integer value [n] (chat types are small integers); [Obj] is a
    plain object, with [Object.prototype] for prototype, given by its
    own properties in insertion order.  No value of the model is a
    function. *)
Inductive value : Type :=
| Undefined
| Null
| Bool (b : bool)
| Num (n : SafeInteger)
| Str (s : string)
| Obj (props : list (string * value)).

(** [ToBoolean]: what [cond ? a : b] and [if (cond)] test. *)
Definition truthy (v : value) : bool :=
  match v with
  | Undefined | Null => false
  | Bool b => b
  | Num n => negb (integer n =? 0)%Z
  | Str s => negb (s =? "")
  | Obj _ => true
  end.

Fixpoint lookup {A : Type} (k : string) (l : list (string * A)) : option A :=
  match l with
  | [] => None
  | (k', v) :: r => if k' =? k then Some v else lookup k r
  end.

(** [v.key] for a [v] that is neither [undefined] nor [null]: an own
    property of an object, [undefined] when there is none.  The source
    reads [name] only, which no primitive carries. *)
Definition get (v : value) (key : string) : value :=
  match v with
  | Obj props => match lookup key props with Some x => x | None => Undefined end
  | _ => Undefined
  end.

(** [ToString], as [setAttribute] applies it; [None] is a [TypeError].
    An object is converted by its [toString]: the one of
    [Object.prototype] answers ["[object Object]"]; an own property
    [toString] hides it and, no value being a function, cannot be
    called, after which [valueOf] (own, not callable, or inherited,
    answering the object itself) gives no primitive either. *)
Definition ToString (v : value) : option string :=
  match v with
  | Undefined => Some "undefined"
  | Null => Some "null"
  | Bool true => Some "true"
  | Bool false => Some "false"
  | Num n => Some (NilZero.string_of_int (Z.to_int (integer n)))
  | Str s => Some s
  | Obj props =>
      match lookup "toString" props with
      | Some _ => None
      | None => Some "[object Object]"
      end
  end.

(** The string of a value that converts (the empty string stands for
    the others, where no string comes to be). *)
Definition shown (v : value) : string :=
  match ToString v with Some s => s | None => "" end.

(** [`${x}`] for an [x] that is a string or [null] (what [getAttribute]
    returns). *)
Definition interpolate (x : option string) : string :=
  match x with Some s => s | None => "null" end.

(** [if (x)] for the same [x]: [null] and the empty string are falsy. *)
Definition nonEmpty (x : option string) : bool :=
  match x with Some s => negb (s =? "") | None => false end.

(** [s.slice(0, n)] *)
Definition slice0 (n : nat) (s : string) : string := substring 0 n s.

(** [s.replace(c, d)] with a one-character string pattern: the first
    occurrence only. *)
Fixpoint replaceFirst (c d : ascii) (s : string) : string :=
  match s with
  | EmptyString => EmptyString
  | String x r => if Ascii.eqb x c then String d r else String x (replaceFirst c d r)
  end.

(** [s.replace(/c/g, d)]: every occurrence. *)
Fixpoint replaceAll (c d : ascii) (s : string) : string :=
  match s with
  | EmptyString => EmptyString
  | String x r => String (if Ascii.eqb x c then d else x) (replaceAll c d r)
  end.

(** [arr.join(sep)] on an array of strings. *)
Definition join (sep : string) (arr : list string) : string := String.concat sep arr.

(** A [Date], by the UTC calendar fields [toISOString] prints. *)
Record Date : Type := mkDate {
  year : Z;
  month : nat;
  day : nat;
  hours : nat;
  minutes : nat;
  seconds : nat;
  milliseconds : nat
}.

Definition decimal (n : nat) : string := NilZero.string_of_uint (Nat.to_uint n).

Fixpoint zeros (k : nat) : string :=
  match k with O => "" | S k' => String "0" (zeros k') end.

(** [String(n).padStart(w, "0")] *)
Definition pad (w n : nat) : string :=
  let d := decimal n in zeros (w - String.length d) ++ d.

(** The year of the ISO format: four digits from 0 to 9999, a sign and
    six digits outside. *)
Definition isoYear (y : Z) : string :=
  if ((0 <=? y) && (y <=? 9999))%Z then pad 4 (Z.to_nat y)
  else (if (y <? 0)%Z then "-" else "+") ++ pad 6 (Z.abs_nat y).

(** [d.toISOString()]: [YYYY-MM-DDTHH:mm:ss.sssZ]. *)
Definition toISOString (d : Date) : string :=
  isoYear (year d) ++ "-" ++ pad 2 (month d) ++ "-" ++ pad 2 (day d) ++ "T"
  ++ pad 2 (hours d) ++ ":" ++ pad 2 (minutes d) ++ ":" ++ pad 2 (seconds d)
  ++ "." ++ pad 3 (milliseconds d) ++ "Z".

End JS.

(** ** The fragment of the DOM the extension touches *)

Module DOM.

(** An element has a tag name, an [id] (empty when it has none), its
    class list, its other attributes in the order they were set, and its
    children; a text node has its data. *)
Inductive Node : Type :=
| Element (localName : string) (id : string) (classList : list string)
          (attributes : list (string * string)) (childNodes : list Node)
| Text (data : string).

(** [document.createElement(tag)] *)
Definition createElement (tag : string) : Node := Element tag "" [] [] [].

Definition childNodes (n : Node) : list Node :=
  match n with Element _ _ _ _ ch => ch | Text _ => [] end.

Definition setChildNodes (ch : list Node) (n : Node) : Node :=
  match n with Element t i c a _ => Element t i c a ch | Text d => Text d end.

(** [parent.appendChild(child)], for a child that is attached nowhere. *)
Definition appendChild (parent child : Node) : Node :=
  setChildNodes (childNodes parent ++ [child]) parent.

(** [el.innerHTML = ''] *)
Definition clearInnerHTML (el : Node) : Node := setChildNodes [] el.

(** [el.id = v] *)
Definition setId (v : string) (n : Node) : Node :=
  match n with Element t _ c a ch => Element t v c a ch | Text d => Text d end.

Fixpoint assign (k v : string) (l : list (string * string)) : list (string * string) :=
  match l with
  | [] => [(k, v)]
  | (k', v') :: r => if k' =? k then (k', v) :: r else (k', v') :: assign k v r
  end.

(** [el.name = s] for a property that reflects the attribute of that
    name ([href], [download], and [style.display = 'none'] for [style]):
    the attribute is set to the string; one that exists keeps its
    place. *)
Definition reflect (name s : string) (n : Node) : Node :=
  match n with
  | Element t i c a ch => Element t i c (assign name s a) ch
  | Text d => Text d
  end.

(** [el.setAttribute(name, v)]: the value is converted to a string
    first, and a value that does not convert raises ([None]).  ([id] and
    [class] are held apart; the source sets neither this way.) *)
Definition setAttribute (name : string) (v : JS.value) (n : Node) : option Node :=
  match JS.ToString v with
  | Some s => Some (reflect name s n)
  | None => None
  end.

(** [el.getAttribute(name)]: [None] is [null]. *)
Definition getAttribute (name : string) (n : Node) : option string :=
  match n with
  | Element _ _ _ a _ => JS.lookup name a
  | Text _ => None
  end.

(** The descendants of a node, in document order. *)
Fixpoint descendants (n : Node) : list Node :=
  match n with
  | Element _ _ _ _ ch => flat_map (fun c => c :: descendants c) ch
  | Text _ => []
  end.

(** [el.textContent] *)
Fixpoint textContent (n : Node) : string :=
  match n with
  | Element _ _ _ _ ch => String.concat "" (map textContent ch)
  | Text d => d
  end.

(** The selectors of the source: a tag name, a class, or both
    (['div'], ['.tag'], ['div.line']). *)
Record Selector : Type := mkSelector {
  selTag : option string;
  selClass : option string
}.

Definition matches (s : Selector) (n : Node) : bool :=
  match n with
  | Element t _ c _ _ =>
      match selTag s with Some t' => t =? t' | None => true end
      && match selClass s with
         | Some k => existsb (String.eqb k) c
         | None => true
         end
  | Text _ => false
  end.

(** [el.querySelectorAll(s)] and [el.querySelector(s)] *)
Definition querySelectorAll (s : Selector) (el : Node) : list Node :=
  filter (matches s) (descendants el).

Definition querySelector (s : Selector) (el : Node) : option Node :=
  find (matches s) (descendants el).

Definition hasId (i : string) (n : Node) : bool :=
  match n with Element _ j _ _ _ => j =? i | Text _ => false end.

(** [document.getElementById(i)] over the nodes of the body: the first
    element in document order. *)
Definition getElementById (i : string) (body : list Node) : option Node :=
  find (hasId i) (flat_map (fun n => n :: descendants n) body).

End DOM.

(** ** Programs: a state monad with failure

    [None] is an uncaught [TypeError] (a property of [null] or
    [undefined] was used); the state it would leave is not kept. *)

Definition M (S A : Type) : Type := S -> option (A * S).

Definition ret {S A : Type} (a : A) : M S A := fun w => Some (a, w).

Definition bind {S A B : Type} (m : M S A) (k : A -> M S B) : M S B :=
  fun w => match m w with Some (a, w') => k a w' | None => None end.

Definition throw {S A : Type} : M S A := fun _ => None.

Definition gets {S A : Type} (f : S -> A) : M S A := fun w => Some (f w, w).

Definition modify {S : Type} (f : S -> S) : M S unit := fun w => Some (tt, f w).

Notation "x <- c ;; k" := (bind c (fun x => k))
  (at level 61, c at next level, right associativity).
Notation "c ;; k" := (bind c (fun _ => k))
  (at level 61, right associativity).

(** [arr.forEach(x => { ...; messages.push(m) })]: the body computes a
    line from the element, with its effects, and pushes it. *)
Fixpoint forEachPush {S A B : Type} (arr : list A) (f : A -> M S B) (messages : list B)
  : M S (list B) :=
  match arr with
  | [] => ret messages
  | x :: r => m <- f x ;; forEachPush r f (messages ++ [m])
  end.

(** ** The page the extension runs in *)

(** The host application is opaque: the nodes it currently shows in the
    body of the page, and whatever else it remembers. *)
Record Host : Type := mkHost {
  hostDocument : list DOM.Node;
  memory : JS.value
}.

(** What [this] is bound to in a call of the host's function. *)
Inductive receiver : Type :=
| ThisUI
| ThisOther (v : JS.value).

(** The host's chat-emission function: from its binding, its three
    arguments, the body of the document as the call finds it (the log
    container and the download links are in it) and the host's state, to
    what it returns and the state it leaves.  It is taken to return: a
    host function that threw would stop the arrow function of
    [hookChatSystem] before it logs. *)
Definition HostFn : Type :=
  receiver -> JS.value -> JS.value -> JS.value -> list DOM.Node -> Host
  -> JS.value * Host.

(** What [UI.addChatLine] can hold: the host's own function, the arrow
    function of [hookChatSystem] closed over what it replaced, or a value
    that is no function. *)
Inductive closure : Type :=
| Native (f : HostFn)
| Hooked (originalAddChatLine : closure)
| NotAFunction (v : JS.value).

(** The global [UI]: not declared (or [undefined]), [null], or an object
    with what its property [addChatLine] holds ([None]: no such
    property).  A [UI] that is a number, a string or a boolean has no
    such property either, and is read as an object without it. *)
Inductive UIState : Type :=
| NoUI
| NullUI
| UIObject (addChatLine : option closure).

(** The two [onClick] functions of the menu page. *)
Inductive Handler : Type := OnDownload | OnClear.

Inductive Icon : Type := ArrowIcon | CrossIcon.

Record MenuItem : Type := mkMenuItem {
  itemId : string;
  icon : Icon;
  text : string;
  keybind : string;
  onClick : Handler
}.

(** What a timer runs: the clean-up of a download, or the start-up
    check for the menu framework. *)
Inductive Callback : Type :=
| Cleanup (url : nat)
| CheckFramework.

Inductive Timer : Type :=
| Timeout (ms : nat) (cb : Callback)
| Interval (ms : nat) (cb : Callback).

(** What leaves the page. *)
Inductive Effect : Type :=
| ConsoleLog (msg : string)
| ConsoleError (msg : string)
| Alert (msg : string)
| Download (filename : string) (content : string) (mime : string).

Record World : Type := mkWorld {
  host : Host;
  (** the global [UI] *)
  UI : UIState;
  (** the pages of [window.GameMenuExtension] ([None]: not there yet) *)
  menu : option (list (string * list MenuItem));
  (** [ChatLogger.logContainer] ([None]: [null]) *)
  logContainer : option DOM.Node;
  (** former log containers, still in the body *)
  retired : list DOM.Node;
  (** download links in the body, by the number of the object URL
      each points to *)
  anchors : list (nat * DOM.Node);
  (** the live object URLs, and how many were created *)
  objectURLs : list nat;
  created : nat;
  timers : list Timer;
  (** the readings [new Date()] gives, and how many were taken *)
  clock : nat -> JS.Date;
  ticks : nat;
  output : list Effect
}.

Definition setHost (h : Host) (w : World) : World :=
  mkWorld h (UI w) (menu w) (logContainer w) (retired w) (anchors w)
          (objectURLs w) (created w) (timers w) (clock w) (ticks w) (output w).
Definition setUI (u : UIState) (w : World) : World :=
  mkWorld (host w) u (menu w) (logContainer w) (retired w) (anchors w)
          (objectURLs w) (created w) (timers w) (clock w) (ticks w) (output w).
Definition setMenu (m : option (list (string * list MenuItem))) (w : World) : World :=
  mkWorld (host w) (UI w) m (logContainer w) (retired w) (anchors w)
          (objectURLs w) (created w) (timers w) (clock w) (ticks w) (output w).
Definition setLogContainer (c : option DOM.Node) (w : World) : World :=
  mkWorld (host w) (UI w) (menu w) c (retired w) (anchors w)
          (objectURLs w) (created w) (timers w) (clock w) (ticks w) (output w).
Definition setRetired (r : list DOM.Node) (w : World) : World :=
  mkWorld (host w) (UI w) (menu w) (logContainer w) r (anchors w)
          (objectURLs w) (created w) (timers w) (clock w) (ticks w) (output w).
Definition setAnchors (a : list (nat * DOM.Node)) (w : World) : World :=
  mkWorld (host w) (UI w) (menu w) (logContainer w) (retired w) a
          (objectURLs w) (created w) (timers w) (clock w) (ticks w) (output w).
Definition setObjectURLs (o : list nat) (n : nat) (w : World) : World :=
  mkWorld (host w) (UI w) (menu w) (logContainer w) (retired w) (anchors w)
          o n (timers w) (clock w) (ticks w) (output w).
Definition setTimers (t : list Timer) (w : World) : World :=
  mkWorld (host w) (UI w) (menu w) (logContainer w) (retired w) (anchors w)
          (objectURLs w) (created w) t (clock w) (ticks w) (output w).
Definition setTicks (n : nat) (w : World) : World :=
  mkWorld (host w) (UI w) (menu w) (logContainer w) (retired w) (anchors w)
          (objectURLs w) (created w) (timers w) (clock w) n (output w).
Definition setOutput (o : list Effect) (w : World) : World :=
  mkWorld (host w) (UI w) (menu w) (logContainer w) (retired w) (anchors w)
          (objectURLs w) (created w) (timers w) (clock w) (ticks w) o.

(** The body of the document, in document order: the host's nodes, then
    what the extension appended.  (None of the extension's nodes has the
    id the source looks up, so their order among themselves is
    immaterial.) *)
Definition body (w : World) : list DOM.Node :=
  hostDocument (host w) ++ retired w
  ++ match logContainer w with Some c => [c] | None => [] end
  ++ map snd (anchors w).


Definition Prog : Type -> Type := M World.

Definition consoleLog (msg : string) : Prog unit :=
  modify (fun w => setOutput (output w ++ [ConsoleLog msg]) w).

Definition consoleError (msg : string) : Prog unit :=
  modify (fun w => setOutput (output w ++ [ConsoleError msg]) w).

Definition alert (msg : string) : Prog unit :=
  modify (fun w => setOutput (output w ++ [Alert msg]) w).

(** [new Date()]: the next reading of the clock. *)
Definition newDate : Prog JS.Date :=
  fun w => Some (clock w (ticks w), setTicks (S (ticks w)) w).

(** [this.logContainer], to be used as an object. *)
Definition theLogContainer : Prog DOM.Node :=
  c <- gets logContainer ;;
  match c with Some el => ret el | None => throw end.

(** [el.setAttribute(name, v)] as a step of a program. *)
Definition setAttribute (name : string) (v : JS.value) (el : DOM.Node) : Prog DOM.Node :=
  match DOM.setAttribute name v el with
  | Some el' => ret el'
  | None => throw
  end.

Definition newline : string := String "010"%char EmptyString.

(** ** The [ChatLogger] object *)

(** The [switch] of [logMessage]: strict equality with 1, 2 and 3. *)
Definition typeTextOf (chatType : JS.value) : string :=
  match chatType with
  | JS.Num n =>
      match integer n with
      | 1%Z => "WHISPER_TO"
      | 2%Z => "WHISPER_FROM"
      | 3%Z => "TEAM"
      | _ => ""
      end
  | _ => ""
  end.

Definition logMessage (player text chatType : JS.value) : Prog unit :=
  d <- newDate ;;
  let timestamp := JS.replaceFirst "T" " " (JS.slice0 19 (JS.toISOString d)) in
  let typeText := typeTextOf chatType in
  let playerName := if JS.truthy player then JS.get player "name" else JS.Str "Unknown" in
  let logEntry := DOM.createElement "div" in
  logEntry <- setAttribute "data-timestamp" (JS.Str timestamp) logEntry ;;
  logEntry <- setAttribute "data-player" playerName logEntry ;;
  logEntry <- setAttribute "data-type" (JS.Str typeText) logEntry ;;
  logEntry <- setAttribute "data-text" text logEntry ;;
  c <- theLogContainer ;;
  modify (setLogContainer (Some (DOM.appendChild c logEntry))).

Definition clearLog : Prog unit :=
  consoleLog "Clearing chat log..." ;;
  c <- theLogContainer ;;
  modify (setLogContainer (Some (DOM.clearInnerHTML c))) ;;
  alert "Chat log cleared".

(** [a.click()] saves the blob behind [a.href] under the name
    [a.download]; the timer removes the link and revokes the URL. *)
Definition downloadTextFile (text filename : string) : Prog unit :=
  consoleLog ("Downloading text file: " ++ filename) ;;
  url <- gets created ;;
  modify (fun w => setObjectURLs (objectURLs w ++ [url]) (S url) w) ;;
  let a := DOM.createElement "a" in
  let a := DOM.reflect "href" ("blob:" ++ JS.decimal url) a in
  let a := DOM.reflect "download" filename a in
  modify (fun w => setAnchors (anchors w ++ [(url, a)]) w) ;;
  consoleLog "Triggering download..." ;;
  modify (fun w => setOutput (output w ++ [Download filename text "text/plain"]) w) ;;
  modify (fun w => setTimers (timers w ++ [Timeout 100 (Cleanup url)]) w).

(** The file name stamp: [new Date().toISOString().slice(0, 19).replace(/:/g, '-')]. *)
Definition fileStamp (d : JS.Date) : string :=
  JS.replaceAll ":" "-" (JS.slice0 19 (JS.toISOString d)).

(** The body of the [forEach] of [downloadCurrentChat]. *)
Definition scrapeLine (div : DOM.Node) : Prog string :=
  let tag := match DOM.querySelector (DOM.mkSelector None (Some "tag")) div with
             | Some tagElement => DOM.textContent tagElement
             | None => ""
             end in
  let sender := match DOM.querySelector (DOM.mkSelector None (Some "nick")) div with
                | Some nickElement => DOM.textContent nickElement
                | None => ""
                end in
  let message := match DOM.querySelector (DOM.mkSelector None (Some "text")) div with
                 | Some textElement => DOM.textContent textElement
                 | None => ""
                 end in
  d <- newDate ;;
  let timestamp := JS.replaceFirst "T" " " (JS.slice0 19 (JS.toISOString d)) in
  let formattedMessage :=
    (if negb (tag =? "")
     then "[" ++ timestamp ++ "] [" ++ tag ++ "] " ++ sender ++ ": " ++ message
     else "[" ++ timestamp ++ "] " ++ sender ++ ": " ++ message)%string in
  ret formattedMessage.

Definition downloadCurrentChat : Prog unit :=
  consoleLog "Downloading current chat from DOM..." ;;
  chatLines <- gets (fun w => DOM.getElementById "chatlines" (body w)) ;;
  match chatLines with
  | None =>
      consoleError "Chat container not found" ;;
      alert "Chat container not found"
  | Some chatLines =>
      let chatDivs := DOM.querySelectorAll (DOM.mkSelector (Some "div") (Some "line")) chatLines in
      messages <- forEachPush chatDivs scrapeLine [] ;;
      if (List.length messages =? 0)%nat then
        consoleLog "No chat messages found" ;;
        alert "No chat messages found"
      else
        consoleLog ("Found " ++ JS.decimal (List.length messages) ++ " messages in DOM") ;;
        d <- newDate ;;
        downloadTextFile (JS.join newline messages) ("game-chat-" ++ fileStamp d ++ ".txt")
  end.

(** The body of the [forEach] of [downloadLog]. *)
Definition formatEntry (entry : DOM.Node) : string :=
  let timestamp := DOM.getAttribute "data-timestamp" entry in
  let player := DOM.getAttribute "data-player" entry in
  let type := DOM.getAttribute "data-type" entry in
  let text := DOM.getAttribute "data-text" entry in
  if JS.nonEmpty type
  then "[" ++ JS.interpolate timestamp ++ "] [" ++ JS.interpolate type ++ "] "
       ++ JS.interpolate player ++ ": " ++ JS.interpolate text
  else "[" ++ JS.interpolate timestamp ++ "] " ++ JS.interpolate player ++ ": "
       ++ JS.interpolate text.

Definition downloadLog : Prog unit :=
  consoleLog "Attempting to download chat log..." ;;
  c <- theLogContainer ;;
  let entries := DOM.querySelectorAll (DOM.mkSelector (Some "div") None) c in
  if (List.length entries =? 0)%nat then
    consoleLog "No logged entries found, falling back to DOM extraction" ;;
    downloadCurrentChat
  else
    messages <- forEachPush entries (fun entry => ret (formatEntry entry)) [] ;;
    consoleLog ("Found " ++ JS.decimal (List.length messages) ++ " messages to download") ;;
    d <- newDate ;;
    downloadTextFile (JS.join newline messages) ("game-chat-log-" ++ fileStamp d ++ ".txt").

(** Calling what [UI.addChatLine] holds.  The host's function runs on
    the page as it is.  The arrow function ignores its own binding,
    calls what it replaced on [UI], logs, and returns nothing.  Calling
    a value that is no function raises. *)
Fixpoint call (fn : closure) (this : receiver) (player text chatType : JS.value)
  : Prog JS.value :=
  match fn with
  | Native f =>
      fun w => let (v, h) := f this player text chatType (body w) (host w) in
               Some (v, setHost h w)
  | Hooked originalAddChatLine =>
      call originalAddChatLine ThisUI player text chatType ;;
      logMessage player text chatType ;;
      ret JS.Undefined
  | NotAFunction _ => throw
  end.

(** Whether [UI.addChatLine] is truthy, for a [UI] that is an object. *)
Definition present (addChatLine : option closure) : bool :=
  match addChatLine with
  | None => false
  | Some (NotAFunction v) => JS.truthy v
  | Some _ => true
  end.

(** [typeof UI !== 'undefined' && UI.addChatLine]: a [UI] that is [null]
    passes the first test and raises at the second. *)
Definition hookChatSystem : Prog unit :=
  ui <- gets UI ;;
  match ui with
  | NoUI => consoleError "UI.addChatLine not found, chat logging not available"
  | NullUI => throw
  | UIObject None => consoleError "UI.addChatLine not found, chat logging not available"
  | UIObject (Some originalAddChatLine) =>
      if present (Some originalAddChatLine) then
        modify (setUI (UIObject (Some (Hooked originalAddChatLine)))) ;;
        consoleLog "Successfully hooked into chat system"
      else
        consoleError "UI.addChatLine not found, chat logging not available"
  end.

Definition chatOptions : list MenuItem :=
  [ mkMenuItem "download-chat" ArrowIcon "Download Chat" "D" OnDownload;
    mkMenuItem "clear-chat" CrossIcon "Clear Chat" "C" OnClear ].

Definition init : Prog bool :=
  let el := DOM.createElement "div" in
  let el := DOM.setId "chat-log-container" el in
  let el := DOM.reflect "style" "display: none;" el in
  modify (fun w => setRetired
            (retired w ++ match logContainer w with Some c => [c] | None => [] end) w) ;;
  modify (setLogContainer (Some el)) ;;
  hookChatSystem ;;
  consoleLog "Chat Logger initialized" ;;
  m <- gets menu ;;
  match m with
  | None => throw
  | Some pages => modify (setMenu (Some (pages ++ [("Chat Options", chatOptions)])))
  end ;;
  ret true.

(** The [onClick] functions. *)
Definition activate (h : Handler) : Prog unit :=
  match h with
  | OnDownload => consoleLog "Download chat button clicked" ;; downloadLog
  | OnClear => consoleLog "Clear chat button clicked" ;; clearLog
  end.

(** The script itself: start now, or poll for the framework. *)
Definition main : Prog unit :=
  m <- gets menu ;;
  match m with
  | Some _ => init ;; ret tt
  | None => modify (fun w => setTimers (timers w ++ [Interval 100 CheckFramework]) w)
  end.

Fixpoint removeNth {A : Type} (k : nat) (l : list A) : list A :=
  match l, k with
  | [], _ => []
  | _ :: r, O => r
  | x :: r, S k' => x :: removeNth k' r
  end.

Definition runCallback (k : nat) (t : Timer) : Prog unit :=
  match t with
  | Timeout _ (Cleanup url) | Interval _ (Cleanup url) =>
      modify (fun w => setAnchors (filter (fun a => negb (fst a =? url)%nat) (anchors w)) w) ;;
      modify (fun w => setObjectURLs
                (filter (fun u => negb (u =? url)%nat) (objectURLs w)) (created w) w) ;;
      consoleLog "Download cleanup complete"
  | Timeout _ CheckFramework | Interval _ CheckFramework =>
      m <- gets menu ;;
      match m with
      | Some _ => modify (fun w => setTimers (removeNth k (timers w)) w) ;; init ;; ret tt
      | None => ret tt
      end
  end.

(** The host, or anyone, calling [UI.addChatLine(player, text, chatType)]
    with [this] bound as given. *)
Definition invoke (this : receiver) (player text chatType : JS.value) : Prog JS.value :=
  ui <- gets UI ;;
  match ui with
  | UIObject (Some fn) => call fn this player text chatType
  | _ => throw
  end.

(** What happens to the page once the script has run. *)
Inductive Action : Type :=
| Emit (this : receiver) (player text chatType : JS.value)
| Activate (h : Handler)
| Fire (k : nat).

Definition step (a : Action) : Prog unit :=
  match a with
  | Emit this player text chatType => invoke this player text chatType ;; ret tt
  | Activate h => activate h
  | Fire k =>
      ts <- gets timers ;;
      match nth_error ts k with
      | Some (Timeout ms cb) =>
          modify (setTimers (removeNth k ts)) ;; runCallback k (Timeout ms cb)
      | Some (Interval ms cb) => runCallback k (Interval ms cb)
      | None => ret tt
      end
  end.

(** [actions] one after the other. *)
Fixpoint run (actions : list Action) : Prog unit :=
  match actions with
  | [] => ret tt
  | a :: r => step a ;; run r
  end.

(** ** The capture log as data

    A stored line is a [div] with the four [data-*] attributes, in the
    order [logMessage] sets them; the record of a line is their values. *)
Record ChatRecord : Type := mkChatRecord {
  dataTimestamp : string;
  dataPlayer : string;
  dataType : string;
  dataText : string
}.

Definition entry (r : ChatRecord) : DOM.Node :=
  DOM.Element "div" "" []
    [ ("data-timestamp", dataTimestamp r); ("data-player", dataPlayer r);
      ("data-type", dataType r); ("data-text", dataText r) ] [].

(** The name [logMessage] gives a player. *)
Definition playerNameOf (player : JS.value) : JS.value :=
  if JS.truthy player then JS.get player "name" else JS.Str "Unknown".

(** The name of the player and the text both convert to strings. *)
Definition storable (player text : JS.value) : bool :=
  match JS.ToString (playerNameOf player), JS.ToString text with
  | Some _, Some _ => true
  | _, _ => false
  end.

(** The record [logMessage] stores for a call at clock reading [d],
    when the call is storable. *)
Definition normalize (d : JS.Date) (player text chatType : JS.value) : ChatRecord :=
  mkChatRecord
    (JS.replaceFirst "T" " " (JS.slice0 19 (JS.toISOString d)))
    (JS.shown (playerNameOf player))
    (typeTextOf chatType)
    (JS.shown text).

(** The enumeration [downloadLog] reads the log with. *)
Definition readAll (w : World) : list DOM.Node :=
  match logContainer w with
  | Some c => DOM.querySelectorAll (DOM.mkSelector (Some "div") None) c
  | None => []
  end.

(** The log container exists and holds exactly the lines of [rs]. *)
Definition logIs (w : World) (rs : list ChatRecord) : Prop :=
  exists tag i cls attrs,
    logContainer w = Some (DOM.Element tag i cls attrs (map entry rs)).

Definition isCleanup (t : Timer) : Prop :=
  match t with
  | Timeout _ (Cleanup _) | Interval _ (Cleanup _) => True
  | _ => False
  end.

(** The state once [init] has run: the log holds [rs], and the start-up
    poll is over. *)
Definition Ready (w : World) (rs : list ChatRecord) : Prop :=
  logIs w rs /\ Forall isCleanup (timers w).

(** The calls among [actions], as (player, text, chatType). *)
Fixpoint emitted (actions : list Action) : list (JS.value * JS.value * JS.value) :=
  match actions with
  | [] => []
  | Emit _ player text chatType :: r => (player, text, chatType) :: emitted r
  | _ :: r => emitted r
  end.

(** The calls among [actions] have names and texts that convert. *)
Definition storableAction (a : Action) : bool :=
  match a with
  | Emit _ player text _ => storable player text
  | _ => true
  end.

(** The files saved so far: name and text. *)
Fixpoint downloads (out : list Effect) : list (string * string) :=
  match out with
  | [] => []
  | Download filename text _ :: r => (filename, text) :: downloads r
  | _ :: r => downloads r
  end.

(** *** The specification's view of a record *)

Inductive Category : Type := NONE | WHISPER_TO | WHISPER_FROM | TEAM.

(** The category of an integer code, [None] standing for an absent
    one. *)
Definition categoryOf (code : option SafeInteger) : Category :=
  match code with
  | None => NONE
  | Some n =>
      if (integer n =? 1)%Z then WHISPER_TO
      else if (integer n =? 2)%Z then WHISPER_FROM
      else if (integer n =? 3)%Z then TEAM
      else NONE
  end.

(** How a category is stored and printed; [NONE] has no label. *)
Definition label (c : Category) : string :=
  match c with
  | NONE => ""
  | WHISPER_TO => "WHISPER_TO"
  | WHISPER_FROM => "WHISPER_FROM"
  | TEAM => "TEAM"
  end.

Definition codeValue (code : option SafeInteger) : JS.value :=
  match code with Some n => JS.Num n | None => JS.Undefined end.

(** One line of the transcript, as the specification words it. *)
Definition renderLine (r : ChatRecord) : string :=
  if dataType r =? ""
  then "[" ++ dataTimestamp r ++ "] " ++ dataPlayer r ++ ": " ++ dataText r
  else "[" ++ dataTimestamp r ++ "] [" ++ dataType r ++ "] " ++ dataPlayer r ++ ": "
       ++ dataText r.

(** The lines, each followed by a newline. *)
Fixpoint terminated (lines : list string) : string :=
  match lines with
  | [] => ""
  | l :: r => l ++ newline ++ terminated r
  end.

(** What [logMessage] leaves: one more reading taken, one more line. *)
Definition appendRecord (r : ChatRecord) (w : World) : World :=
  setLogContainer
    (option_map (fun c => DOM.appendChild c (entry r)) (logContainer w))
    (setTicks (S (ticks w)) w).

(** What [downloadTextFile] leaves. *)
Definition saved (text filename : string) (w : World) : World :=
  match downloadTextFile text filename w with
  | Some (_, w') => w'
  | None => w
  end.

(** The line [scrapeLine] makes of a chat line at clock reading [d]. *)
Definition scrapeAt (d : JS.Date) (div : DOM.Node) : string :=
  let field (cls : string) :=
    match DOM.querySelector (DOM.mkSelector None (Some cls)) div with
    | Some el => DOM.textContent el
    | None => ""
    end in
  let timestamp := JS.replaceFirst "T" " " (JS.slice0 19 (JS.toISOString d)) in
  if field "tag" =? ""
  then "[" ++ timestamp ++ "] " ++ field "nick" ++ ": " ++ field "text"
  else "[" ++ timestamp ++ "] [" ++ field "tag" ++ "] " ++ field "nick" ++ ": "
       ++ field "text".

(** The lines of the chat lines [divs], read from reading [k] on. *)
Fixpoint scrapeAll (clk : nat -> JS.Date) (k : nat) (divs : list DOM.Node) : list string :=
  match divs with
  | [] => []
  | div :: r => scrapeAt (clk k) div :: scrapeAll clk (S k) r
  end.


(** *** A small page to try the extension on

    A host that shows its chat in a [div#chatlines]; its [addChatLine]
    adds a [div.line] with the sender's name and the text there, and
    answers [true].  The menu framework is there.  The clock advances a
    second at each reading from 2024-01-02 03:04:05 UTC. *)
Definition sampleAddChatLine : HostFn :=
  fun _ player text _ _ h =>
    let line := DOM.Element "div" "" ["line"] []
                  [ DOM.Element "span" "" ["nick"] []
                      [DOM.Text (JS.shown (JS.get player "name"))];
                    DOM.Element "span" "" ["text"] [] [DOM.Text (JS.shown text)] ] in
    (JS.Bool true,
     mkHost (match hostDocument h with
             | chatLines :: r => DOM.appendChild chatLines line :: r
             | [] => []
             end)
            (memory h)).

Definition sampleClock (k : nat) : JS.Date := JS.mkDate 2024 1 2 3 4 (5 + k) 0.

Definition freshPage : World :=
  mkWorld (mkHost [DOM.Element "div" "chatlines" [] [] []] JS.Undefined)
          (UIObject (Some (Native sampleAddChatLine))) (Some [])
          None [] [] [] 0 [] sampleClock 0 [].

Definition after (actions : list Action) (w : World) : World :=
  match run actions w with
  | Some (_, w') => w'
  | None => w
  end.

(** The page once the script has run. *)
Definition samplePage : World :=
  match main freshPage with
  | Some (_, w) => w
  | None => freshPage
  end.

Definition alice : JS.value := JS.Obj [("name", JS.Str "Alice")].
Definition bob : JS.value := JS.Obj [("name", JS.Str "Bob")].

(** The sample page after Alice said "hi" and Bob said "hey" to the
    team; the same page after the log was cleared, the clock set back. *)
Definition chattedPage : World :=
  after [Emit ThisUI alice (JS.Str "hi") (JS.Num 0);
         Emit ThisUI bob (JS.Str "hey") (JS.Num 3)] samplePage.

Definition clearedPage : World :=
  setTicks 0 (after [Activate OnClear] chattedPage).

(** The records the log of [chattedPage] holds. *)
Definition sampleRecords : list ChatRecord :=
  [ normalize (sampleClock 0) alice (JS.Str "hi") (JS.Num 0);
    normalize (sampleClock 1) bob (JS.Str "hey") (JS.Num 3) ].

(** What no action but a clear or a restart changes: the log container,
    the hook and the clock stay, readings are only ever taken, and the
    pending timers stay clean-ups. *)
Definition extends (w w' : World) : Prop :=
  logContainer w' = logContainer w
  /\ UI w' = UI w
  /\ clock w' = clock w
  /\ ticks w <= ticks w'
  /\ (Forall isCleanup (timers w) -> Forall isCleanup (timers w')).

(** The records of the calls [es] made at the clock readings [ks]. *)
Fixpoint stamped (clk : nat -> JS.Date) (ks : list nat)
         (es : list (JS.value * JS.value * JS.value)) : list ChatRecord :=
  match ks, es with
  | k :: ks', (player, text, chatType) :: es' =>
      normalize (clk k) player text chatType :: stamped clk ks' es'
  | _, _ => []
  end.

(** *** Further notions for the properties of the whole object *)

(** [w'] is [w] but for what was written to the console or alerted and
    for clock readings taken: nothing of the page, the log, the links or
    the timers differs, and no file was saved. *)
Definition quiet (w w' : World) : Prop :=
  host w' = host w /\ UI w' = UI w /\ menu w' = menu w
  /\ logContainer w' = logContainer w /\ retired w' = retired w
  /\ anchors w' = anchors w /\ objectURLs w' = objectURLs w
  /\ created w' = created w /\ timers w' = timers w
  /\ clock w' = clock w /\ ticks w <= ticks w'
  /\ downloads (output w') = downloads (output w).

(** The host's function under the hooks, when what is under them is a
    function, and how many hooks are over it. *)
Fixpoint nativeOf (fn : closure) : option HostFn :=
  match fn with
  | Native f => Some f
  | Hooked originalAddChatLine => nativeOf originalAddChatLine
  | NotAFunction _ => None
  end.

Fixpoint hooks (fn : closure) : nat :=
  match fn with
  | Hooked originalAddChatLine => S (hooks originalAddChatLine)
  | _ => 0
  end.

(** The binding the host's function is called with through [fn]. *)
Definition bindingOf (fn : closure) (this : receiver) : receiver :=
  match fn with
  | Hooked _ => ThisUI
  | _ => this
  end.

(** What [hookChatSystem] leaves in [UI]. *)
Definition hookedUI (ui : UIState) : UIState :=
  match ui with
  | UIObject (Some fn) => if present (Some fn) then UIObject (Some (Hooked fn)) else ui
  | _ => ui
  end.

(** Whether [hookChatSystem] finds a function to hook (or a truthy value
    it takes for one). *)
Definition hookable (ui : UIState) : bool :=
  match ui with
  | UIObject addChatLine => present addChatLine
  | _ => false
  end.

(** Every download link has its object URL and its clean-up timer, in
    the order of the downloads, and no URL number is used twice. *)
Definition linksPaired (w : World) : Prop :=
  map fst (anchors w) = objectURLs w
  /\ timers w = map (fun url => Timeout 100 (Cleanup url)) (objectURLs w)
  /\ Forall (fun url => url < created w) (objectURLs w)
  /\ NoDup (objectURLs w).

(** The calls [es] as actions of the host. *)
Definition emits (es : list (JS.value * JS.value * JS.value)) : list Action :=
  map (fun e => Emit ThisUI (fst (fst e)) (snd (fst e)) (snd e)) es.

(** The texts of the files saved. *)
Definition savedTexts (w : World) : list string := map snd (downloads (output w)).

(** [s] holds the character [c]. *)
Fixpoint holds (c : ascii) (s : string) : bool :=
  match s with
  | EmptyString => false
  | String x r => Ascii.eqb x c || holds c r
  end.

(** A date [toISOString] prints with a four-digit year and two-digit
    fields. *)
Definition plainDate (d : JS.Date) : Prop :=
  (0 <= JS.year d <= 9999)%Z
  /\ JS.month d < 100 /\ JS.day d < 100 /\ JS.hours d < 100
  /\ JS.minutes d < 100 /\ JS.seconds d < 100.

(** A page where the framework is late: nothing but the host and the
    clock. *)
Definition barePage : World :=
  mkWorld (mkHost [] JS.Undefined) NoUI None None [] [] [] 0 [] sampleClock 0 [].

(** The sample page after [init] ran a second time. *)
Definition rehookedPage : World :=
  match init samplePage with
  | Some (_, w) => w
  | None => samplePage
  end.

(** [pad w n] is [w] characters that are neither [T] nor a colon. *)
Definition plainPad (w n : nat) : bool :=
  match JS.pad w n with
  | String a (String b EmptyString) =>
      (w =? 2)%nat && negb (holds "T" (JS.pad w n)) && negb (holds ":" (JS.pad w n))
  | String a (String b (String c (String d EmptyString))) =>
      (w =? 4)%nat && negb (holds "T" (JS.pad w n)) && negb (holds ":" (JS.pad w n))
  | _ => false
  end.


(** ** Properties *)

Example toISOString_sample :
  JS.toISOString (JS.mkDate 2024 1 2 3 4 5 67) = "2024-01-02T03:04:05.067Z".
Proof. reflexivity. Qed.

Example toISOString_far_year :
  JS.toISOString (JS.mkDate 12024 11 30 23 59 59 999) = "+012024-11-30T23:59:59.999Z".
Proof. reflexivity. Qed.

Example ToString_negative : JS.ToString (JS.Num (-12)) = Some "-12".
Proof. reflexivity. Qed.

Example ToString_plain_object : JS.ToString (JS.Obj [("name", JS.Str "Alice")])
                                = Some "[object Object]".
Proof. reflexivity. Qed.

Example ToString_own_toString : JS.ToString (JS.Obj [("toString", JS.Null)]) = None.
Proof. reflexivity. Qed.

Example fileStamp_sample : fileStamp (JS.mkDate 2024 1 2 3 4 5 67) = "2024-01-02T03-04-05".
Proof. reflexivity. Qed.

Example samplePage_hooked :
  UI samplePage = UIObject (Some (Hooked (Native sampleAddChatLine)))
  /\ menu samplePage = Some [("Chat Options", chatOptions)]
  /\ readAll samplePage = [].
Proof. repeat split. Qed.

Ltac run_prog := unfold bind, gets, modify, ret, throw; simpl.

Lemma descendants_entries (rs : list ChatRecord) :
  flat_map (fun c => c :: DOM.descendants c) (map entry rs) = map entry rs.
Proof.
  induction rs as [|r rs IH]; simpl.
  - reflexivity.
  - now rewrite IH.
Qed.

Lemma filter_div_entries (rs : list ChatRecord) :
  filter (DOM.matches (DOM.mkSelector (Some "div") None)) (map entry rs) = map entry rs.
Proof.
  induction rs as [|r rs IH]; simpl.
  - reflexivity.
  - now rewrite IH.
Qed.

Lemma readAll_logIs (w : World) (rs : list ChatRecord) :
  logIs w rs -> readAll w = map entry rs.
Proof.
  intros (tag & i & cls & attrs & Hc). unfold readAll. rewrite Hc.
  unfold DOM.querySelectorAll. simpl DOM.descendants.
  rewrite descendants_entries. apply filter_div_entries.
Qed.

Lemma map_entry_inj (rs rs' : list ChatRecord) :
  map entry rs = map entry rs' -> rs = rs'.
Proof.
  revert rs'. induction rs as [|r rs IH]; intros [|r' rs'] H; simpl in H;
    try discriminate; try reflexivity.
  injection H as Ht Hp Hy Hx Hr. destruct r, r'; simpl in *. subst.
  f_equal. now apply IH.
Qed.

(** The log determines the records it holds. *)
Lemma logIs_unique (w : World) (rs rs' : list ChatRecord) :
  logIs w rs -> logIs w rs' -> rs = rs'.
Proof.
  intros H H'. apply map_entry_inj.
  rewrite <- (readAll_logIs w rs H). now apply readAll_logIs.
Qed.

Lemma storable_converts (player text : JS.value) :
  storable player text = true ->
  JS.ToString (playerNameOf player) = Some (JS.shown (playerNameOf player))
  /\ JS.ToString text = Some (JS.shown text).
Proof.
  unfold storable, JS.shown.
  destruct (JS.ToString (playerNameOf player)); [|discriminate].
  destruct (JS.ToString text); [|discriminate]. auto.
Qed.

Lemma logMessage_run (w : World) (c : DOM.Node) (player text chatType : JS.value) :
  logContainer w = Some c ->
  storable player text = true ->
  logMessage player text chatType w
  = Some (tt, appendRecord (normalize (clock w (ticks w)) player text chatType) w).
Proof.
  intros Hc Hs. destruct (storable_converts _ _ Hs) as (Hn & Ht).
  unfold playerNameOf in Hn.
  unfold logMessage, newDate, theLogContainer, appendRecord, setAttribute, DOM.setAttribute.
  unfold bind, gets, modify, ret. cbv beta iota.
  repeat first [ rewrite Hn | rewrite Ht | progress cbn [JS.ToString] | progress cbv beta iota ].
  cbn [logContainer setTicks]. rewrite Hc.
  reflexivity.
Qed.

(** A call whose name or text does not convert raises in
    [setAttribute], before [appendChild]. *)
Lemma logMessage_raises (w : World) (player text chatType : JS.value) :
  storable player text = false ->
  logMessage player text chatType w = None.
Proof.
  intros Hs. unfold storable, playerNameOf in Hs.
  unfold logMessage, newDate, setAttribute, DOM.setAttribute.
  unfold bind, ret. cbv beta iota. cbn [JS.ToString]. cbv beta iota.
  destruct (JS.ToString (if JS.truthy player then JS.get player "name" else JS.Str "Unknown"));
    [|reflexivity].
  cbv beta iota. cbn [JS.ToString]. cbv beta iota.
  destruct (JS.ToString text); [discriminate|reflexivity].
Qed.

Lemma logIs_appendRecord (w : World) (rs : list ChatRecord) (r : ChatRecord) :
  logIs w rs -> logIs (appendRecord r w) (rs ++ [r]).
Proof.
  intros (tag & i & cls & attrs & Hc). exists tag, i, cls, attrs.
  unfold appendRecord. simpl. rewrite Hc. simpl.
  now rewrite map_app.
Qed.

Lemma call_hooked_native (f : HostFn) (this : receiver) (player text chatType : JS.value)
      (w : World) (c : DOM.Node) :
  logContainer w = Some c ->
  storable player text = true ->
  call (Hooked (Native f)) this player text chatType w
  = Some (JS.Undefined,
          appendRecord
            (normalize (clock w (ticks w)) player text chatType)
            (setHost (snd (f ThisUI player text chatType (body w) (host w))) w)).
Proof.
  intros Hc Hs. simpl. unfold bind at 1. unfold bind at 1.
  destruct (f ThisUI player text chatType (body w) (host w)) as [v h] eqn:Hf. simpl.
  rewrite (logMessage_run _ c) by assumption. reflexivity.
Qed.



Lemma forEachPush_pure {S A B : Type} (f : A -> B) (arr : list A) (acc : list B) (w : S) :
  forEachPush arr (fun x => ret (f x)) acc w = Some (acc ++ map f arr, w).
Proof.
  revert acc. induction arr as [|x arr IH]; intros acc; simpl.
  - now rewrite app_nil_r.
  - unfold bind, ret at 1. rewrite IH. now rewrite <- app_assoc.
Qed.

Lemma formatEntry_entry (r : ChatRecord) : formatEntry (entry r) = renderLine r.
Proof.
  unfold formatEntry, renderLine. simpl.
  destruct (dataType r =? ""); reflexivity.
Qed.

Lemma downloadTextFile_run (text filename : string) (w : World) :
  downloadTextFile text filename w = Some (tt, saved text filename w).
Proof. reflexivity. Qed.

Lemma scrapeLine_run (div : DOM.Node) (w : World) :
  scrapeLine div w = Some (scrapeAt (clock w (ticks w)) div, setTicks (S (ticks w)) w).
Proof.
  unfold scrapeLine, scrapeAt, newDate. run_prog.
  destruct (_ =? ""); reflexivity.
Qed.

Lemma forEachPush_scrape (divs : list DOM.Node) (acc : list string) (w : World) :
  forEachPush divs scrapeLine acc w
  = Some (acc ++ scrapeAll (clock w) (ticks w) divs,
          setTicks (ticks w + List.length divs) w).
Proof.
  revert acc w. induction divs as [|div divs IH]; intros acc w; simpl.
  - rewrite app_nil_r, Nat.add_0_r. unfold ret. destruct w; reflexivity.
  - unfold bind. rewrite scrapeLine_run, IH. simpl.
    rewrite <- app_assoc. simpl.
    replace (S (ticks w + List.length divs)) with (ticks w + S (List.length divs)) by lia.
    reflexivity.
Qed.

Lemma scrapeAll_length (clk : nat -> JS.Date) (k : nat) (divs : list DOM.Node) :
  List.length (scrapeAll clk k divs) = List.length divs.
Proof.
  revert k. induction divs as [|div divs IH]; intros k; simpl; [reflexivity|].
  now rewrite IH.
Qed.











Lemma typeTextOf_other (n : SafeInteger) :
  integer n <> 1%Z -> integer n <> 2%Z -> integer n <> 3%Z -> typeTextOf (JS.Num n) = "".
Proof.
  intros H1 H2 H3. unfold typeTextOf. destruct (integer n) as [|p|p]; try reflexivity.
  destruct p as [[?|?|]|[?|?|]|]; try reflexivity; congruence.
Qed.

(** C6.  The category of a call depends on the chat type alone: 1, 2
    and 3 give WHISPER_TO, WHISPER_FROM and TEAM, every other integer
    and an absent code give NONE (the empty label), and so does every
    value that is not a number.  It is the category stored with the
    record of every call that is stored (one whose player name and text
    convert to strings). *)
Theorem category_of_code (chatType : JS.value) :
  (forall code, chatType = codeValue code -> typeTextOf chatType = label (categoryOf code))
  /\ (forall n, chatType = JS.Num n ->
                integer n <> 1%Z -> integer n <> 2%Z -> integer n <> 3%Z ->
                typeTextOf chatType = label NONE)
  /\ ((forall n, chatType <> JS.Num n) -> typeTextOf chatType = label NONE)
  /\ (forall player text w rs,
        logIs w rs ->
        storable player text = true ->
        exists r w',
          logMessage player text chatType w = Some (tt, w')
          /\ logIs w' (rs ++ [r])
          /\ dataType r = typeTextOf chatType).
Proof.
  split; [|split; [|split]].
  - intros [n|] ->; simpl; [|reflexivity].
    destruct (Z.eqb_spec (integer n) 1) as [E|H1]; [now rewrite E|].
    destruct (Z.eqb_spec (integer n) 2) as [E|H2]; [now rewrite E|].
    destruct (Z.eqb_spec (integer n) 3) as [E|H3]; [now rewrite E|].
    now apply typeTextOf_other.
  - intros n -> H1 H2 H3. now apply typeTextOf_other.
  - intros Hn. destruct chatType; try reflexivity. now elim (Hn n).
  - intros player text w rs Hlog Hs. pose proof Hlog as (tag & i & cls & attrs & Hc).
    exists (normalize (clock w (ticks w)) player text chatType).
    eexists. split; [exact (logMessage_run w _ player text chatType Hc Hs)|].
    split; [now apply logIs_appendRecord|reflexivity].
Qed.

Lemma category_of_code_witness :
  exists r w',
    logMessage bob (JS.Str "hey") (JS.Num 3) samplePage = Some (tt, w')
    /\ logIs w' [r]
    /\ dataType r = "TEAM".
Proof.
  destruct (category_of_code (JS.Num 3)) as (_ & _ & _ & Hstored).
  destruct (Hstored bob (JS.Str "hey") samplePage []) as (r & w' & Hrun & Hlog & Htype).
  - do 4 eexists. reflexivity.
  - reflexivity.
  - exists r, w'. auto.
Defined.

Lemma downloads_app (a b : list Effect) : downloads (a ++ b) = downloads a ++ downloads b.
Proof.
  induction a as [|e a IH]; simpl; [reflexivity|].
  destruct e; simpl; now rewrite IH.
Qed.

(** The primary path of [downloadLog]: the log is not empty. *)
Lemma downloadLog_primary (w : World) (r : ChatRecord) (rs : list ChatRecord) :
  logIs w (r :: rs) ->
  let w1 := setOutput (output w ++ [ConsoleLog "Attempting to download chat log..."]) w in
  let w2 := setOutput
              (output w1 ++ [ConsoleLog ("Found " ++ JS.decimal (List.length (r :: rs))
                                                   ++ " messages to download")]) w1 in
  downloadLog w
  = Some (tt, saved (JS.join newline (map renderLine (r :: rs)))
                    ("game-chat-log-" ++ fileStamp (clock w (ticks w)) ++ ".txt")
                    (setTicks (S (ticks w)) w2)).
Proof.
  intros Hlog w1 w2. pose proof Hlog as (tag & i & cls & attrs & Hc).
  pose proof (readAll_logIs w _ Hlog) as Hread. unfold readAll in Hread. rewrite Hc in Hread.
  set (es := map entry (r :: rs)) in Hread at 2.
  assert (Hlen : (List.length es =? 0)%nat = false) by reflexivity.
  assert (Hes : map formatEntry es = map renderLine (r :: rs)).
  { unfold es. rewrite map_map. apply map_ext, formatEntry_entry. }
  assert (Hn : List.length (map renderLine (r :: rs)) = List.length (r :: rs))
    by apply length_map.
  clearbody es.
  unfold downloadLog, theLogContainer, consoleLog, newDate.
  unfold bind, gets, modify, throw. cbv beta iota.
  change (logContainer (setOutput _ w)) with (logContainer w).
  rewrite Hc. unfold ret at 1. cbv beta iota. rewrite Hread, Hlen.
  rewrite (forEachPush_pure formatEntry). cbv beta iota.
  rewrite app_nil_l, Hes, Hn.
  reflexivity.
Qed.

Lemma extends_refl (w : World) : extends w w.
Proof. unfold extends. auto. Qed.

Lemma extends_trans (w1 w2 w3 : World) : extends w1 w2 -> extends w2 w3 -> extends w1 w3.
Proof.
  unfold extends. intros (Hc & Hu & Hk & Ht & Hf) (Hc' & Hu' & Hk' & Ht' & Hf').
  repeat split; try congruence; [lia | auto].
Qed.

Lemma extends_setOutput (o : list Effect) (w : World) : extends w (setOutput o w).
Proof. unfold extends. simpl. auto. Qed.

Lemma extends_setTicks (n : nat) (w : World) : ticks w <= n -> extends w (setTicks n w).
Proof. unfold extends. simpl. auto. Qed.

Lemma extends_saved (text filename : string) (w : World) : extends w (saved text filename w).
Proof.
  unfold extends, saved. simpl. repeat split; auto.
  intros H. apply Forall_app. split; [exact H|]. constructor; [exact I|constructor].
Qed.

Lemma downloads_saved (text filename : string) (w : World) :
  downloads (output (saved text filename w))
  = downloads (output w) ++ [(filename, text)].
Proof.
  unfold saved. simpl. rewrite !downloads_app. simpl. now rewrite !app_nil_r.
Qed.

(** The fallback finds no container: two notices, nothing else. *)
Lemma downloadCurrentChat_no_container (w : World) :
  DOM.getElementById "chatlines" (body w) = None ->
  downloadCurrentChat w
  = Some (tt, setOutput (output w ++ [ConsoleLog "Downloading current chat from DOM...";
                                      ConsoleError "Chat container not found";
                                      Alert "Chat container not found"]) w).
Proof.
  intros Hnone. unfold downloadCurrentChat, consoleLog, consoleError, alert.
  unfold bind, gets, modify. cbv beta iota.
  change (body (setOutput _ w)) with (body w). rewrite Hnone. cbv beta iota.
  unfold setOutput. simpl. now rewrite <- !app_assoc.
Qed.

(** The fallback finds the container without a chat line. *)
Lemma downloadCurrentChat_no_line (w : World) (chatLines : DOM.Node) :
  DOM.getElementById "chatlines" (body w) = Some chatLines ->
  DOM.querySelectorAll (DOM.mkSelector (Some "div") (Some "line")) chatLines = [] ->
  downloadCurrentChat w
  = Some (tt, setOutput (output w ++ [ConsoleLog "Downloading current chat from DOM...";
                                      ConsoleLog "No chat messages found";
                                      Alert "No chat messages found"]) w).
Proof.
  intros Hsome Hdivs. unfold downloadCurrentChat, consoleLog, alert.
  unfold bind, gets, modify. cbv beta iota.
  change (body (setOutput _ w)) with (body w). rewrite Hsome. cbv beta iota zeta.
  rewrite Hdivs. simpl.
  unfold setOutput. simpl. now rewrite <- !app_assoc.
Qed.

(** The fallback finds chat lines: it reads the clock once a line and
    once more for the file name. *)
Lemma downloadCurrentChat_lines (w : World) (chatLines : DOM.Node) :
  DOM.getElementById "chatlines" (body w) = Some chatLines ->
  let divs := DOM.querySelectorAll (DOM.mkSelector (Some "div") (Some "line")) chatLines in
  divs <> [] ->
  exists w',
    downloadCurrentChat w = Some (tt, w')
    /\ extends w w'
    /\ downloads (output w')
       = downloads (output w)
         ++ [(("game-chat-" ++ fileStamp (clock w (ticks w + List.length divs))
                            ++ ".txt")%string,
              JS.join newline (scrapeAll (clock w) (ticks w) divs))].
Proof.
  intros Hsome divs Hdivs. unfold downloadCurrentChat, consoleLog, alert.
  unfold bind, gets, modify. cbv beta iota.
  change (body (setOutput _ w)) with (body w). rewrite Hsome. cbv beta iota zeta.
  fold divs. rewrite forEachPush_scrape. cbv beta iota.
  rewrite app_nil_l.
  assert (Hlen : (List.length (scrapeAll (clock w) (ticks w) divs) =? 0)%nat = false).
  { rewrite scrapeAll_length. destruct divs; [congruence|reflexivity]. }
  change (clock (setOutput _ w)) with (clock w).
  change (ticks (setOutput _ w)) with (ticks w). rewrite Hlen.
  unfold newDate. cbv beta iota. rewrite downloadTextFile_run.
  eexists. split; [reflexivity|]. split.
  - eapply extends_trans; [|apply extends_saved].
    unfold extends. simpl. repeat split; auto. lia.
  - rewrite downloads_saved. simpl. rewrite !downloads_app. simpl.
    now rewrite !app_nil_r.
Qed.

(** [downloadLog] on an empty log goes to the fallback. *)
Lemma downloadLog_fallback (w : World) :
  logIs w [] ->
  downloadLog w
  = downloadCurrentChat
      (setOutput (output w ++ [ConsoleLog "Attempting to download chat log...";
                               ConsoleLog "No logged entries found, falling back to DOM extraction"])
                 w).
Proof.
  intros Hlog. pose proof Hlog as (tag & i & cls & attrs & Hc).
  pose proof (readAll_logIs w _ Hlog) as Hread. unfold readAll in Hread. rewrite Hc in Hread.
  simpl map in Hread, Hc.
  unfold downloadLog, theLogContainer, consoleLog.
  unfold bind, gets, modify, throw. cbv beta iota.
  change (logContainer (setOutput _ w)) with (logContainer w).
  rewrite Hc. unfold ret at 1. cbv beta iota zeta. rewrite Hread. simpl.
  f_equal. unfold setOutput. simpl. now rewrite <- !app_assoc.
Qed.

Lemma append_assoc (a b c : string) : ((a ++ b) ++ c)%string = (a ++ b ++ c)%string.
Proof. induction a as [|x a IH]; simpl; [reflexivity|now rewrite IH]. Qed.

Lemma length_append (a b : string) :
  String.length (a ++ b) = String.length a + String.length b.
Proof. induction a as [|x a IH]; simpl; [reflexivity|now rewrite IH]. Qed.

Lemma join_terminated (l : string) (lines : list string) :
  (JS.join newline (l :: lines) ++ newline)%string = terminated (l :: lines).
Proof.
  revert l. induction lines as [|l' lines IH]; intros l.
  - simpl. reflexivity.
  - change (JS.join newline (l :: l' :: lines))
      with (l ++ newline ++ JS.join newline (l' :: lines))%string.
    change (terminated (l :: l' :: lines))
      with (l ++ newline ++ terminated (l' :: lines))%string.
    rewrite <- IH. now rewrite !append_assoc.
Qed.

(** C5.  The export makes one line of each record of the log, in the
    order stored: [[time] [category] sender: text], without the category
    bracket when the category is empty (NONE).  The text saved is these
    lines with one newline between each two and none after the last.
    For the records of Alice's "hi" (type 0) at [t1] and Bob's "hey"
    (type 3) at [t2] it is ["[t1] Alice: hi\n[t2] [TEAM] Bob: hey"]. *)
Theorem transcript_format (w : World) (rs : list ChatRecord) :
  logIs w rs ->
  forEachPush (readAll w) (fun entry => ret (formatEntry entry)) [] w
  = Some (map renderLine rs, w)
  /\ List.length (map renderLine rs) = List.length rs
  /\ (rs <> [] ->
      (JS.join newline (map renderLine rs) ++ newline)%string
      = terminated (map renderLine rs))
  /\ (rs <> [] ->
      exists w' filename,
        downloadLog w = Some (tt, w')
        /\ downloads (output w')
           = downloads (output w) ++ [(filename, JS.join newline (map renderLine rs))])
  /\ (forall t1 t2,
        rs = [ mkChatRecord t1 "Alice" (typeTextOf (JS.Num 0)) "hi";
               mkChatRecord t2 "Bob" (typeTextOf (JS.Num 3)) "hey" ] ->
        JS.join newline (map renderLine rs)
        = ("[" ++ t1 ++ "] Alice: hi" ++ newline ++ "[" ++ t2 ++ "] [TEAM] Bob: hey")%string).
Proof.
  intros Hlog. split.
  { rewrite (forEachPush_pure formatEntry), (readAll_logIs w _ Hlog), map_map.
    simpl. do 2 f_equal. apply map_ext, formatEntry_entry. }
  split; [apply length_map|]. split; [|split].
  - destruct rs as [|r rs]; [congruence|]. intros _.
    apply (join_terminated (renderLine r) (map renderLine rs)).
  - destruct rs as [|r rs]; [congruence|]. intros _. eexists. eexists.
    split; [exact (downloadLog_primary w r rs Hlog)|].
    rewrite downloads_saved; simpl; rewrite !downloads_app; simpl.
    now rewrite !app_nil_r.
  - intros t1 t2 ->. simpl. rewrite !append_assoc. reflexivity.
Qed.

Lemma transcript_format_witness :
  forEachPush (readAll chattedPage) (fun entry => ret (formatEntry entry)) [] chattedPage
  = Some (map renderLine sampleRecords, chattedPage)
  /\ List.length (map renderLine sampleRecords) = List.length sampleRecords
  /\ (sampleRecords <> [] ->
      (JS.join newline (map renderLine sampleRecords) ++ newline)%string
      = terminated (map renderLine sampleRecords))
  /\ (sampleRecords <> [] ->
      exists w' filename,
        downloadLog chattedPage = Some (tt, w')
        /\ downloads (output w')
           = downloads (output chattedPage)
             ++ [(filename, JS.join newline (map renderLine sampleRecords))])
  /\ (forall t1 t2,
        sampleRecords = [ mkChatRecord t1 "Alice" (typeTextOf (JS.Num 0)) "hi";
                          mkChatRecord t2 "Bob" (typeTextOf (JS.Num 3)) "hey" ] ->
        JS.join newline (map renderLine sampleRecords)
        = ("[" ++ t1 ++ "] Alice: hi" ++ newline ++ "[" ++ t2 ++ "] [TEAM] Bob: hey")%string).
Proof.
  apply (transcript_format chattedPage sampleRecords).
  do 4 eexists. reflexivity.
Defined.

(** C8.  Exporting a log that is not empty when the clock reads
    2024-01-02 03:04:05 saves the file
    [game-chat-log-2024-01-02T03-04-05.txt]. *)
Theorem export_file_name (w : World) (r : ChatRecord) (rs : list ChatRecord) (ms : nat) :
  logIs w (r :: rs) ->
  clock w (ticks w) = JS.mkDate 2024 1 2 3 4 5 ms ->
  exists w',
    activate OnDownload w = Some (tt, w')
    /\ map fst (downloads (output w'))
       = map fst (downloads (output w)) ++ ["game-chat-log-2024-01-02T03-04-05.txt"].
Proof.
  intros Hlog Hclock.
  set (w0 := setOutput (output w ++ [ConsoleLog "Download chat button clicked"]) w).
  assert (Hlog0 : logIs w0 (r :: rs)) by exact Hlog.
  eexists. split.
  - unfold activate, consoleLog, bind, modify. cbv beta iota. fold w0.
    exact (downloadLog_primary w0 r rs Hlog0).
  - rewrite downloads_saved. simpl. rewrite !downloads_app. simpl.
    rewrite !app_nil_r, map_app. simpl. rewrite Hclock. reflexivity.
Qed.

Lemma export_file_name_witness :
  exists w',
    activate OnDownload (setTicks 0 chattedPage) = Some (tt, w')
    /\ map fst (downloads (output w'))
       = map fst (downloads (output (setTicks 0 chattedPage)))
         ++ ["game-chat-log-2024-01-02T03-04-05.txt"].
Proof.
  apply (export_file_name (setTicks 0 chattedPage)
           (normalize (sampleClock 0) alice (JS.Str "hi") (JS.Num 0))
           [normalize (sampleClock 1) bob (JS.Str "hey") (JS.Num 3)] 0).
  - do 4 eexists. reflexivity.
  - reflexivity.
Defined.

(** C7.  When the export is asked for with an empty log, and the page
    has no chat container or the container holds no chat line, the page
    is left as it was but for what was written out: console lines and
    one alert, no download.  The log container, the links and the timers
    are untouched. *)
Theorem empty_export_only_notifies (w : World) :
  logIs w [] ->
  DOM.getElementById "chatlines" (body w) = None
  \/ (exists chatLines,
        DOM.getElementById "chatlines" (body w) = Some chatLines
        /\ DOM.querySelectorAll (DOM.mkSelector (Some "div") (Some "line")) chatLines = []) ->
  exists notes msg,
    activate OnDownload w = Some (tt, setOutput (output w ++ notes) w)
    /\ In (Alert msg) notes
    /\ downloads notes = []
    /\ logContainer (setOutput (output w ++ notes) w) = logContainer w.
Proof.
  intros Hlog Hpage.
  set (w0 := setOutput (output w ++ [ConsoleLog "Download chat button clicked"]) w).
  assert (Hlog0 : logIs w0 []) by exact Hlog.
  assert (Hrun : activate OnDownload w = downloadLog w0) by reflexivity.
  rewrite Hrun, (downloadLog_fallback w0 Hlog0).
  destruct Hpage as [Hnone | (chatLines & Hsome & Hdivs)].
  - exists [ConsoleLog "Download chat button clicked";
            ConsoleLog "Attempting to download chat log...";
            ConsoleLog "No logged entries found, falling back to DOM extraction";
            ConsoleLog "Downloading current chat from DOM...";
            ConsoleError "Chat container not found";
            Alert "Chat container not found"], "Chat container not found".
    split.
    + rewrite downloadCurrentChat_no_container by exact Hnone.
      unfold w0, setOutput. simpl. now rewrite <- !app_assoc.
    + split; [simpl; tauto|]. split; reflexivity.
  - exists [ConsoleLog "Download chat button clicked";
            ConsoleLog "Attempting to download chat log...";
            ConsoleLog "No logged entries found, falling back to DOM extraction";
            ConsoleLog "Downloading current chat from DOM...";
            ConsoleLog "No chat messages found";
            Alert "No chat messages found"], "No chat messages found".
    split.
    + rewrite (downloadCurrentChat_no_line _ chatLines) by assumption.
      unfold w0, setOutput. simpl. now rewrite <- !app_assoc.
    + split; [simpl; tauto|]. split; reflexivity.
Qed.

Lemma empty_export_only_notifies_witness :
  exists notes msg,
    activate OnDownload samplePage = Some (tt, setOutput (output samplePage ++ notes) samplePage)
    /\ In (Alert msg) notes
    /\ downloads notes = []
    /\ logContainer (setOutput (output samplePage ++ notes) samplePage)
       = logContainer samplePage.
Proof.
  apply (empty_export_only_notifies samplePage).
  - do 4 eexists. reflexivity.
  - right. exists (DOM.Element "div" "chatlines" [] [] []). split; reflexivity.
Defined.

(** C9.  Whatever the log holds, a clear leaves the container without
    children, so that reading the log gives nothing, and tells the user
    with an alert, in the one call. *)
Theorem clear_empties_log (w : World) (c : DOM.Node) :
  logContainer w = Some c ->
  exists w',
    clearLog w = Some (tt, w')
    /\ logContainer w' = Some (DOM.clearInnerHTML c)
    /\ DOM.childNodes (DOM.clearInnerHTML c) = []
    /\ readAll w' = []
    /\ output w' = output w ++ [ConsoleLog "Clearing chat log..."; Alert "Chat log cleared"]
    /\ (forall rs, logIs w rs -> logIs w' []).
Proof.
  intros Hc. eexists. split.
  - unfold clearLog, theLogContainer, consoleLog, alert.
    unfold bind, gets, modify, throw. cbv beta iota.
    change (logContainer (setOutput _ w)) with (logContainer w).
    rewrite Hc. unfold ret at 1. cbv beta iota. reflexivity.
  - simpl. split; [reflexivity|].
    split; [destruct c; reflexivity|].
    split; [unfold readAll; simpl; destruct c; reflexivity|].
    split; [now rewrite <- app_assoc|].
    intros rs (tag & i & cls & attrs & Hc'). rewrite Hc in Hc'. injection Hc' as ->.
    exists tag, i, cls, attrs. reflexivity.
Qed.

Lemma clear_empties_log_witness :
  exists w',
    clearLog chattedPage = Some (tt, w')
    /\ logContainer w'
       = Some (DOM.clearInnerHTML
                 (DOM.Element "div" "chat-log-container" [] [("style", "display: none;")]
                    (map entry [ normalize (sampleClock 0) alice (JS.Str "hi") (JS.Num 0);
                                 normalize (sampleClock 1) bob (JS.Str "hey") (JS.Num 3) ])))
    /\ DOM.childNodes
         (DOM.clearInnerHTML
            (DOM.Element "div" "chat-log-container" [] [("style", "display: none;")]
               (map entry [ normalize (sampleClock 0) alice (JS.Str "hi") (JS.Num 0);
                            normalize (sampleClock 1) bob (JS.Str "hey") (JS.Num 3) ]))) = []
    /\ readAll w' = []
    /\ output w'
       = output chattedPage ++ [ConsoleLog "Clearing chat log..."; Alert "Chat log cleared"]
    /\ (forall rs, logIs chattedPage rs -> logIs w' []).
Proof.
  apply (clear_empties_log chattedPage). reflexivity.
Defined.

Lemma names_differ (stamp : string) :
  ("game-chat-log-" ++ stamp ++ ".txt")%string <> ("game-chat-" ++ stamp ++ ".txt")%string.
Proof.
  intros H. apply (f_equal String.length) in H.
  rewrite !length_append in H. simpl in H. lia.
Qed.

(** C10.  The export of a log that is not empty is named
    [game-chat-log-<stamp>.txt]; the export of the chat lines of the
    page, taken when the log is empty, is named [game-chat-<stamp>.txt].
    With the same clock reading for the name the two names differ. *)
Theorem fallback_file_name_differs
        (w1 w2 : World) (r : ChatRecord) (rs : list ChatRecord) (chatLines : DOM.Node) :
  let divs := DOM.querySelectorAll (DOM.mkSelector (Some "div") (Some "line")) chatLines in
  logIs w1 (r :: rs) ->
  logIs w2 [] ->
  DOM.getElementById "chatlines" (body w2) = Some chatLines ->
  divs <> [] ->
  clock w2 (ticks w2 + List.length divs) = clock w1 (ticks w1) ->
  exists w1' w2' name1 name2,
    downloadLog w1 = Some (tt, w1')
    /\ map fst (downloads (output w1')) = map fst (downloads (output w1)) ++ [name1]
    /\ downloadLog w2 = Some (tt, w2')
    /\ map fst (downloads (output w2')) = map fst (downloads (output w2)) ++ [name2]
    /\ name1 = ("game-chat-log-" ++ fileStamp (clock w1 (ticks w1)) ++ ".txt")%string
    /\ name2 = ("game-chat-" ++ fileStamp (clock w1 (ticks w1)) ++ ".txt")%string
    /\ name1 <> name2.
Proof.
  intros divs Hlog1 Hlog2 Hsome Hdivs Hclock.
  set (w0 := setOutput
               (output w2 ++ [ConsoleLog "Attempting to download chat log...";
                              ConsoleLog "No logged entries found, falling back to DOM extraction"])
               w2).
  destruct (downloadCurrentChat_lines w0 chatLines Hsome Hdivs) as (w2' & Hrun & _ & Hout).
  eexists. exists w2'. eexists. eexists.
  split; [exact (downloadLog_primary w1 r rs Hlog1)|].
  split.
  { rewrite downloads_saved. simpl. rewrite !downloads_app. simpl.
    rewrite !app_nil_r, map_app. reflexivity. }
  split; [rewrite (downloadLog_fallback w2 Hlog2); exact Hrun|].
  split.
  { rewrite Hout. unfold w0. simpl. rewrite !downloads_app. simpl.
    rewrite !app_nil_r, map_app. fold divs. rewrite Hclock. reflexivity. }
  split; [reflexivity|]. split; [reflexivity|].
  apply names_differ.
Qed.

Lemma fallback_file_name_differs_witness :
  exists w1' w2' name1 name2,
    downloadLog chattedPage = Some (tt, w1')
    /\ map fst (downloads (output w1')) = map fst (downloads (output chattedPage)) ++ [name1]
    /\ downloadLog clearedPage = Some (tt, w2')
    /\ map fst (downloads (output w2')) = map fst (downloads (output clearedPage)) ++ [name2]
    /\ name1 = ("game-chat-log-" ++ fileStamp (clock chattedPage (ticks chattedPage))
                                 ++ ".txt")%string
    /\ name2 = ("game-chat-" ++ fileStamp (clock chattedPage (ticks chattedPage))
                             ++ ".txt")%string
    /\ name1 <> name2.
Proof.
  apply (fallback_file_name_differs chattedPage clearedPage
           (normalize (sampleClock 0) alice (JS.Str "hi") (JS.Num 0))
           [normalize (sampleClock 1) bob (JS.Str "hey") (JS.Num 3)]
           (DOM.Element "div" "chatlines" [] []
              [ DOM.Element "div" "" ["line"] []
                  [ DOM.Element "span" "" ["nick"] [] [DOM.Text "Alice"];
                    DOM.Element "span" "" ["text"] [] [DOM.Text "hi"] ];
                DOM.Element "div" "" ["line"] []
                  [ DOM.Element "span" "" ["nick"] [] [DOM.Text "Bob"];
                    DOM.Element "span" "" ["text"] [] [DOM.Text "hey"] ] ])).
  - do 4 eexists. reflexivity.
  - do 4 eexists. reflexivity.
  - reflexivity.
  - discriminate.
  - reflexivity.
Defined.

Lemma downloadCurrentChat_extends (w : World) :
  exists w', downloadCurrentChat w = Some (tt, w') /\ extends w w'.
Proof.
  destruct (DOM.getElementById "chatlines" (body w)) as [chatLines|] eqn:Hel.
  - destruct (DOM.querySelectorAll (DOM.mkSelector (Some "div") (Some "line")) chatLines)
      as [|div divs] eqn:Hdivs.
    + eexists. split; [exact (downloadCurrentChat_no_line w chatLines Hel Hdivs)|].
      apply extends_setOutput.
    + destruct (downloadCurrentChat_lines w chatLines Hel) as (w' & Hrun & Hext & _).
      * rewrite Hdivs. discriminate.
      * now exists w'.
  - eexists. split; [exact (downloadCurrentChat_no_container w Hel)|].
    apply extends_setOutput.
Qed.

Lemma downloadLog_extends (w : World) (rs : list ChatRecord) :
  logIs w rs -> exists w', downloadLog w = Some (tt, w') /\ extends w w'.
Proof.
  intros Hlog. destruct rs as [|r rs].
  - rewrite (downloadLog_fallback w Hlog).
    match goal with |- context [downloadCurrentChat ?w0] =>
      destruct (downloadCurrentChat_extends w0) as (w' & Hrun & Hext) end.
    exists w'. split; [exact Hrun|].
    eapply extends_trans; [apply extends_setOutput|exact Hext].
  - eexists. split; [exact (downloadLog_primary w r rs Hlog)|].
    eapply extends_trans; [|apply extends_saved].
    eapply extends_trans; [apply extends_setOutput|].
    eapply extends_trans; [apply extends_setOutput|].
    apply extends_setTicks. simpl. lia.
Qed.

Lemma Forall_removeNth {A : Type} (P : A -> Prop) (k : nat) (l : list A) :
  Forall P l -> Forall P (removeNth k l).
Proof.
  intros H. revert k. induction H as [|x l Hx Hl IH]; intros k.
  - destruct k; constructor.
  - destruct k; simpl; [exact Hl|]. constructor; [exact Hx|apply IH].
Qed.

Lemma fire_extends (k : nat) (w : World) :
  Forall isCleanup (timers w) ->
  exists w', step (Fire k) w = Some (tt, w') /\ extends w w'.
Proof.
  intros Hts. unfold step. unfold bind at 1, gets at 1.
  destruct (nth_error (timers w) k) as [t|] eqn:Hk.
  - assert (Ht : isCleanup t).
    { rewrite Forall_forall in Hts. apply Hts. eapply nth_error_In. exact Hk. }
    destruct t as [ms [url|]|ms [url|]]; try contradiction.
    + eexists. split; [reflexivity|].
      unfold extends. simpl. repeat split; auto.
      intros _. now apply Forall_removeNth.
    + eexists. split; [reflexivity|].
      unfold extends. simpl. repeat split; auto.
  - eexists. split; [reflexivity|]. apply extends_refl.
Qed.

Lemma Ready_extends (w w' : World) (rs : list ChatRecord) :
  Ready w rs -> extends w w' -> Ready w' rs.
Proof.
  intros ((tag & i & cls & attrs & Hc) & Hts) (Hc' & _ & _ & _ & Hts').
  split; [|auto]. exists tag, i, cls, attrs. congruence.
Qed.

Lemma step_emit (f : HostFn) (this : receiver) (player text chatType : JS.value)
      (w : World) (rs : list ChatRecord) :
  UI w = UIObject (Some (Hooked (Native f))) ->
  Ready w rs ->
  storable player text = true ->
  exists w',
    step (Emit this player text chatType) w = Some (tt, w')
    /\ Ready w' (rs ++ [normalize (clock w (ticks w)) player text chatType])
    /\ UI w' = UI w /\ clock w' = clock w /\ ticks w' = S (ticks w).
Proof.
  intros Hui (Hlog & Hts) Hs. pose proof Hlog as (tag & i & cls & attrs & Hc).
  eexists. split.
  - unfold step, invoke. unfold bind at 1 2, gets at 1. rewrite Hui.
    rewrite (call_hooked_native f this player text chatType w _ Hc Hs). reflexivity.
  - split; [split|].
    + apply logIs_appendRecord. exists tag, i, cls, attrs. exact Hc.
    + exact Hts.
    + simpl. auto.
Qed.

Lemma step_other (a : Action) (w : World) (rs : list ChatRecord) :
  Ready w rs ->
  a <> Activate OnClear ->
  emitted [a] = [] ->
  exists w', step a w = Some (tt, w') /\ extends w w'.
Proof.
  intros (Hlog & Hts) Hclear Hemit. destruct a as [this p t c|[|]|k].
  - discriminate.
  - set (w0 := setOutput (output w ++ [ConsoleLog "Download chat button clicked"]) w).
    assert (Hlog0 : logIs w0 rs) by exact Hlog.
    destruct (downloadLog_extends w0 rs Hlog0) as (w' & Hrun & Hext).
    exists w'. split; [exact Hrun|].
    eapply extends_trans; [apply extends_setOutput|exact Hext].
  - congruence.
  - now apply fire_extends.
Qed.

Lemma stamped_length (clk : nat -> JS.Date) (ks : list nat)
      (es : list (JS.value * JS.value * JS.value)) :
  List.length ks = List.length es -> List.length (stamped clk ks es) = List.length es.
Proof.
  revert es. induction ks as [|k ks IH]; intros [|[[p t] c] es] H; simpl in *;
    try discriminate; try reflexivity.
  f_equal. apply IH. lia.
Qed.

Lemma run_cons (a : Action) (actions : list Action) (w : World) :
  run (a :: actions) w
  = match step a w with Some (_, w1) => run actions w1 | None => None end.
Proof. reflexivity. Qed.

Lemma run_grows (f : HostFn) (actions : list Action) :
  Forall (fun a => a <> Activate OnClear /\ storableAction a = true) actions ->
  forall (w : World) (rs : list ChatRecord),
    UI w = UIObject (Some (Hooked (Native f))) ->
    Ready w rs ->
    exists w' ks,
      run actions w = Some (tt, w')
      /\ Ready w' (rs ++ stamped (clock w) ks (emitted actions))
      /\ UI w' = UI w /\ clock w' = clock w /\ ticks w <= ticks w'
      /\ List.length ks = List.length (emitted actions)
      /\ Sorted lt ks
      /\ Forall (fun k => ticks w <= k < ticks w') ks.
Proof.
  induction 1 as [|a actions [Ha Hsa] Hrest IH]; intros w rs Hui Hready.
  - exists w, []. simpl. rewrite app_nil_r.
    split; [reflexivity|]. split; [exact Hready|].
    repeat split; auto; constructor.
  - destruct a as [this p t c|h|k].
    + destruct (step_emit f this p t c w rs Hui Hready Hsa)
        as (w1 & Hstep & Hready1 & Hui1 & Hclk1 & Hticks1).
      destruct (IH w1 _ (eq_trans Hui1 Hui) Hready1)
        as (w' & ks & Hrun & Hready' & Hui' & Hclk' & Hle & Hlen & Hsorted & Hbounds).
      exists w', (ticks w :: ks). split.
      { rewrite run_cons, Hstep. exact Hrun. }
      split.
      { simpl. rewrite <- app_assoc in Hready'. simpl in Hready'.
        rewrite Hclk1 in Hready'. exact Hready'. }
      split; [congruence|]. split; [congruence|]. split; [lia|].
      split; [simpl; lia|]. split.
      * constructor; [exact Hsorted|].
        destruct ks as [|k0 ks]; constructor.
        inversion Hbounds; subst. lia.
      * constructor; [lia|].
        eapply Forall_impl; [|exact Hbounds]. simpl. intros; lia.
    + destruct (step_other (Activate h) w rs Hready Ha eq_refl) as (w1 & Hstep & Hext).
      pose proof (Ready_extends _ _ _ Hready Hext) as Hready1.
      destruct Hext as (_ & Hui1 & Hclk1 & Hticks1 & _).
      destruct (IH w1 _ (eq_trans Hui1 Hui) Hready1)
        as (w' & ks & Hrun & Hready' & Hui' & Hclk' & Hle & Hlen & Hsorted & Hbounds).
      exists w', ks. split.
      { rewrite run_cons, Hstep. exact Hrun. }
      split; [simpl emitted; rewrite <- Hclk1; exact Hready'|].
      split; [congruence|]. split; [congruence|]. split; [lia|].
      split; [exact Hlen|]. split; [exact Hsorted|].
      eapply Forall_impl; [|exact Hbounds]. simpl. intros; lia.
    + destruct (step_other (Fire k) w rs Hready Ha eq_refl) as (w1 & Hstep & Hext).
      pose proof (Ready_extends _ _ _ Hready Hext) as Hready1.
      destruct Hext as (_ & Hui1 & Hclk1 & Hticks1 & _).
      destruct (IH w1 _ (eq_trans Hui1 Hui) Hready1)
        as (w' & ks & Hrun & Hready' & Hui' & Hclk' & Hle & Hlen & Hsorted & Hbounds).
      exists w', ks. split.
      { rewrite run_cons, Hstep. exact Hrun. }
      split; [simpl emitted; rewrite <- Hclk1; exact Hready'|].
      split; [congruence|]. split; [congruence|]. split; [lia|].
      split; [exact Hlen|]. split; [exact Hsorted|].
      eapply Forall_impl; [|exact Hbounds]. simpl. intros; lia.
Qed.

(** [init], on a page where the framework and the host's function are
    there, installs the hook over that function, starts an empty log and
    registers the menu page. *)
Lemma init_installs (f : HostFn) (w : World) (pages : list (string * list MenuItem)) :
  UI w = UIObject (Some (Native f)) ->
  menu w = Some pages ->
  exists w',
    init w = Some (true, w')
    /\ UI w' = UIObject (Some (Hooked (Native f)))
    /\ logIs w' []
    /\ timers w' = timers w
    /\ host w' = host w
    /\ menu w' = Some (pages ++ [("Chat Options", chatOptions)]).
Proof.
  intros Hui Hmenu. eexists. split.
  - unfold init, hookChatSystem, consoleLog.
    unfold bind, gets, modify, throw. cbv beta iota.
    change (UI (setLogContainer _ (setRetired _ w))) with (UI w). rewrite Hui.
    cbv beta iota. change (present (Some (Native f))) with true. cbv beta iota.
    change (menu (setOutput _ (setOutput _ (setUI _ (setLogContainer _ (setRetired _ w))))))
      with (menu w).
    rewrite Hmenu. reflexivity.
  - simpl. repeat split; auto. do 4 eexists. reflexivity.
Qed.

(** The script does so at once when the framework is there. *)
Lemma main_installs (f : HostFn) (w : World) (pages : list (string * list MenuItem)) :
  UI w = UIObject (Some (Native f)) ->
  menu w = Some pages ->
  Forall isCleanup (timers w) ->
  exists w',
    main w = Some (tt, w')
    /\ UI w' = UIObject (Some (Hooked (Native f)))
    /\ Ready w' []
    /\ host w' = host w.
Proof.
  intros Hui Hmenu Hts.
  destruct (init_installs f w pages Hui Hmenu) as (w' & Hrun & Hui' & Hlog & Hts' & Hh & _).
  exists w'. split.
  - unfold main. unfold bind at 1, gets at 1. rewrite Hmenu.
    unfold bind. rewrite Hrun. reflexivity.
  - repeat split; auto. now rewrite Hts'.
Qed.

(** When the framework was missing at first, the poll that finds it
    does the same and retires itself. *)
Lemma poll_installs (f : HostFn) (w : World) (pages : list (string * list MenuItem)) :
  UI w = UIObject (Some (Native f)) ->
  menu w = Some pages ->
  timers w = [Interval 100 CheckFramework] ->
  exists w',
    step (Fire 0) w = Some (tt, w')
    /\ UI w' = UIObject (Some (Hooked (Native f)))
    /\ Ready w' []
    /\ host w' = host w.
Proof.
  intros Hui Hmenu Hts.
  destruct (init_installs f (setTimers [] w) pages Hui Hmenu)
    as (w' & Hrun & Hui' & Hlog & Hts' & Hh & _).
  exists w'. split.
  - unfold step. unfold bind at 1, gets at 1. rewrite Hts.
    change (nth_error [Interval 100 CheckFramework] 0)
      with (Some (Interval 100 CheckFramework)).
    cbv beta iota. unfold runCallback. unfold bind at 1, gets at 1. rewrite Hmenu.
    unfold bind, modify. rewrite Hts. simpl removeNth. rewrite Hrun. reflexivity.
  - repeat split; auto. rewrite Hts'. constructor.
Qed.

Lemma Forall_both {A : Type} (P Q : A -> Prop) (l : list A) :
  Forall P l -> Forall Q l -> Forall (fun a => P a /\ Q a) l.
Proof.
  intros HP. induction HP as [|x l Hx HP IH]; intros HQ; [constructor|].
  inversion HQ; subst. constructor; auto.
Qed.

(** C4.  From a log holding [rs], after any actions without a clear
    (calls of [UI.addChatLine] through the hook that are captured, their
    player names and texts converting to strings; exports; timers), the
    log reads back as the lines of [rs] followed by one record for each
    call, in the order of the calls and stamped with increasing clock
    readings: no line is changed or removed, and N calls add exactly N
    lines. *)
Theorem log_grows_in_order
        (f : HostFn) (actions : list Action) (w : World) (rs : list ChatRecord) :
  UI w = UIObject (Some (Hooked (Native f))) ->
  Ready w rs ->
  Forall (fun a => a <> Activate OnClear) actions ->
  Forall (fun a => storableAction a = true) actions ->
  exists w' ks,
    run actions w = Some (tt, w')
    /\ readAll w' = readAll w ++ map entry (stamped (clock w) ks (emitted actions))
    /\ List.length (readAll w') = List.length (readAll w) + List.length (emitted actions)
    /\ List.length ks = List.length (emitted actions)
    /\ Sorted lt ks.
Proof.
  intros Hui Hready Hacts Hstore.
  destruct (run_grows f actions (Forall_both _ _ _ Hacts Hstore) w rs Hui Hready)
    as (w' & ks & Hrun & (Hlog' & _) & _ & _ & _ & Hlen & Hsorted & _).
  exists w', ks. split; [exact Hrun|].
  rewrite (readAll_logIs _ _ Hlog'), (readAll_logIs _ _ (proj1 Hready)), map_app.
  split; [reflexivity|].
  rewrite length_app, !length_map, (stamped_length _ _ _ Hlen).
  auto.
Qed.

Lemma log_grows_in_order_witness :
  exists w' ks,
    run [ Emit ThisUI alice (JS.Str "hi") (JS.Num 0); Activate OnDownload;
          Emit ThisUI bob (JS.Str "hey") (JS.Num 3); Fire 0 ] samplePage = Some (tt, w')
    /\ readAll w'
       = readAll samplePage
         ++ map entry
              (stamped (clock samplePage) ks
                 (emitted [ Emit ThisUI alice (JS.Str "hi") (JS.Num 0); Activate OnDownload;
                            Emit ThisUI bob (JS.Str "hey") (JS.Num 3); Fire 0 ]))
    /\ List.length (readAll w')
       = List.length (readAll samplePage)
         + List.length
             (emitted [ Emit ThisUI alice (JS.Str "hi") (JS.Num 0); Activate OnDownload;
                        Emit ThisUI bob (JS.Str "hey") (JS.Num 3); Fire 0 ])
    /\ List.length ks
       = List.length
           (emitted [ Emit ThisUI alice (JS.Str "hi") (JS.Num 0); Activate OnDownload;
                      Emit ThisUI bob (JS.Str "hey") (JS.Num 3); Fire 0 ])
    /\ Sorted lt ks.
Proof.
  apply (log_grows_in_order sampleAddChatLine _ samplePage []).
  - reflexivity.
  - split; [do 4 eexists; reflexivity | constructor].
  - repeat constructor; discriminate.
  - repeat constructor.
Defined.

(** ** Further properties: the object as a whole *)

Lemma quiet_refl (w : World) : quiet w w.
Proof. unfold quiet. repeat split; auto. Qed.

Lemma quiet_trans (w1 w2 w3 : World) : quiet w1 w2 -> quiet w2 w3 -> quiet w1 w3.
Proof.
  unfold quiet.
  intros (A1 & A2 & A3 & A4 & A5 & A6 & A7 & A8 & A9 & A10 & A11 & A12)
         (B1 & B2 & B3 & B4 & B5 & B6 & B7 & B8 & B9 & B10 & B11 & B12).
  repeat split; try congruence. lia.
Qed.

Lemma quiet_consoleLog (msg : string) (w : World) :
  quiet w (setOutput (output w ++ [ConsoleLog msg]) w).
Proof.
  unfold quiet. simpl. repeat split; auto.
  rewrite downloads_app. simpl. now rewrite app_nil_r.
Qed.

Lemma clearLog_run (w : World) (c : DOM.Node) :
  logContainer w = Some c ->
  clearLog w
  = Some (tt, setOutput (output w ++ [ConsoleLog "Clearing chat log..."; Alert "Chat log cleared"])
                (setLogContainer (Some (DOM.clearInnerHTML c)) w)).
Proof.
  intros Hc. unfold clearLog, theLogContainer, consoleLog, alert.
  unfold bind, gets, modify, throw. cbv beta iota.
  change (logContainer (setOutput _ w)) with (logContainer w).
  rewrite Hc. unfold ret at 1. cbv beta iota.
  unfold setOutput, setLogContainer. simpl. now rewrite <- app_assoc.
Qed.

(** What the fallback leaves: a quiet page, or a quiet page and one
    file saved. *)
Lemma downloadCurrentChat_shape (w : World) :
  exists w',
    downloadCurrentChat w = Some (tt, w')
    /\ (quiet w w'
        \/ exists text filename w0, quiet w w0 /\ w' = saved text filename w0).
Proof.
  destruct (DOM.getElementById "chatlines" (body w)) as [chatLines|] eqn:Hel.
  - destruct (DOM.querySelectorAll (DOM.mkSelector (Some "div") (Some "line")) chatLines)
      as [|div divs] eqn:Hdivs.
    + eexists. split; [exact (downloadCurrentChat_no_line w chatLines Hel Hdivs)|].
      left. unfold quiet. simpl. repeat split; auto.
      rewrite downloads_app. simpl. now rewrite app_nil_r.
    + unfold downloadCurrentChat, consoleLog, alert.
      unfold bind, gets, modify. cbv beta iota.
      change (body (setOutput _ w)) with (body w). rewrite Hel. cbv beta iota zeta.
      rewrite Hdivs, forEachPush_scrape. cbv beta iota. rewrite app_nil_l.
      change (clock (setOutput _ w)) with (clock w).
      change (ticks (setOutput _ w)) with (ticks w).
      change (List.length (scrapeAll (clock w) (ticks w) (div :: divs)) =? 0)%nat with false.
      unfold newDate. cbv beta iota. rewrite downloadTextFile_run.
      match goal with |- context [Some (tt, saved ?t ?f ?w0)] =>
        exists (saved t f w0); split; [reflexivity|];
        right; exists t, f, w0; split; [|reflexivity] end.
      unfold quiet. simpl. repeat split; auto; [lia|].
      rewrite !downloads_app. simpl. now rewrite !app_nil_r.
  - eexists. split; [exact (downloadCurrentChat_no_container w Hel)|].
    left. unfold quiet. simpl. repeat split; auto.
    rewrite downloads_app. simpl. now rewrite app_nil_r.
Qed.

(** What an export leaves: a quiet page, or a quiet page and one file
    saved, with the lines of the log when the log is not empty. *)
Lemma downloadLog_shape (w : World) (rs : list ChatRecord) :
  logIs w rs ->
  exists w',
    downloadLog w = Some (tt, w')
    /\ (quiet w w'
        \/ exists text filename w0,
             quiet w w0 /\ w' = saved text filename w0
             /\ (rs <> [] -> text = JS.join newline (map renderLine rs))).
Proof.
  intros Hlog. destruct rs as [|r rs].
  - rewrite (downloadLog_fallback w Hlog).
    match goal with |- context [downloadCurrentChat ?w0] =>
      destruct (downloadCurrentChat_shape w0) as (w' & Hrun & Hshape);
      assert (Hq : quiet w w0) end.
    { unfold quiet. simpl. repeat split; auto.
      rewrite downloads_app. simpl. now rewrite app_nil_r. }
    exists w'. split; [exact Hrun|].
    destruct Hshape as [Hq' | (text & filename & w0 & Hq' & Hw')].
    + left. exact (quiet_trans _ _ _ Hq Hq').
    + right. exists text, filename, w0.
      split; [exact (quiet_trans _ _ _ Hq Hq')|]. split; [exact Hw'|congruence].
  - eexists. split; [exact (downloadLog_primary w r rs Hlog)|].
    right. eexists. eexists. eexists. split; [|split; [reflexivity|reflexivity]].
    unfold quiet. simpl. repeat split; auto.
    rewrite !downloads_app. simpl. now rewrite !app_nil_r.
Qed.

Lemma map_removeNth {A B : Type} (g : A -> B) (k : nat) (l : list A) :
  map g (removeNth k l) = removeNth k (map g l).
Proof.
  revert k. induction l as [|x l IH]; intros [|k]; simpl; try reflexivity.
  now rewrite IH.
Qed.

Lemma filter_keeps_others (u : nat) (l : list nat) :
  ~ In u l -> filter (fun x => negb (x =? u)%nat) l = l.
Proof.
  induction l as [|x l IH]; simpl; intros Hn; [reflexivity|].
  destruct (Nat.eqb_spec x u) as [->|Hne]; simpl.
  - elim Hn. now left.
  - rewrite IH; [reflexivity|]. intros Hin. apply Hn. now right.
Qed.

Lemma filter_removeNth (u k : nat) (l : list nat) :
  NoDup l -> nth_error l k = Some u ->
  filter (fun x => negb (x =? u)%nat) l = removeNth k l.
Proof.
  intros Hnd. revert k. induction Hnd as [|x l Hx Hnd IH]; intros [|k] Hk; simpl in *;
    try discriminate.
  - injection Hk as ->. rewrite Nat.eqb_refl. simpl. now apply filter_keeps_others.
  - destruct (Nat.eqb_spec x u) as [->|Hne]; simpl.
    + elim Hx. eapply nth_error_In. exact Hk.
    + now rewrite (IH k Hk).
Qed.

Lemma filter_fst (u : nat) (l : list (nat * DOM.Node)) :
  map fst (filter (fun a => negb (fst a =? u)%nat) l)
  = filter (fun x => negb (x =? u)%nat) (map fst l).
Proof.
  induction l as [|a l IH]; simpl; [reflexivity|].
  destruct (fst a =? u)%nat; simpl; now rewrite IH.
Qed.

Lemma NoDup_removeNth {A : Type} (k : nat) (l : list A) : NoDup l -> NoDup (removeNth k l).
Proof.
  intros H. revert k. induction H as [|x l Hx Hnd IH]; intros [|k]; simpl;
    try constructor; auto.
  intros Hin. apply Hx. clear - Hin. revert k Hin.
  induction l as [|y l IHl]; intros [|k] Hin; simpl in *; auto.
  destruct Hin as [->|Hin]; [now left|right; eauto].
Qed.

Lemma NoDup_snoc (c : nat) (l : list nat) :
  NoDup l -> Forall (fun u => u < c) l -> NoDup (l ++ [c]).
Proof.
  intros Hnd Hlt. induction Hnd as [|x l Hx Hnd IH]; simpl.
  - constructor; [intros []|constructor].
  - inversion Hlt as [|? ? Hxc Hl]; subst. constructor; [|now apply IH].
    rewrite in_app_iff. intros [Hin|[->|[]]]; [now apply Hx|lia].
Qed.

(** Saving a file keeps the links paired. *)
Lemma linksPaired_saved (text filename : string) (w : World) :
  linksPaired w -> linksPaired (saved text filename w).
Proof.
  intros (Ha & Ht & Hlt & Hnd). unfold linksPaired, saved. simpl.
  rewrite !map_app, Ha, Ht. simpl. repeat split.
  - apply Forall_app. split.
    + eapply Forall_impl; [|exact Hlt]. simpl. intros; lia.
    + constructor; [lia|constructor].
  - now apply NoDup_snoc.
Qed.

Lemma linksPaired_quiet (w w' : World) : quiet w w' -> linksPaired w -> linksPaired w'.
Proof.
  intros (_ & _ & _ & _ & _ & Ha & Ho & Hc & Ht & _) (H1 & H2 & H3 & H4).
  unfold linksPaired. rewrite Ha, Ho, Hc, Ht. auto.
Qed.

(** A timer that fires, on a page with its links paired: the link and
    the URL of that download go, and nothing else. *)
Lemma fire_paired (k : nat) (w : World) :
  linksPaired w ->
  exists w',
    step (Fire k) w = Some (tt, w')
    /\ linksPaired w'
    /\ host w' = host w /\ UI w' = UI w /\ menu w' = menu w
    /\ logContainer w' = logContainer w /\ clock w' = clock w /\ ticks w' = ticks w
    /\ downloads (output w') = downloads (output w)
    /\ objectURLs w' = removeNth k (objectURLs w).
Proof.
  intros (Ha & Ht & Hlt & Hnd). unfold step. unfold bind at 1, gets at 1.
  destruct (nth_error (timers w) k) as [t|] eqn:Hk.
  - rewrite Ht, nth_error_map in Hk.
    destruct (nth_error (objectURLs w) k) as [u|] eqn:Hu; [|discriminate].
    injection Hk as <-.
    eexists. split; [reflexivity|]. simpl.
    assert (Hf : filter (fun x => negb (x =? u)%nat) (objectURLs w)
                 = removeNth k (objectURLs w)) by now apply filter_removeNth.
    split.
    + unfold linksPaired. simpl. rewrite filter_fst, Ha, Hf, Ht, map_removeNth.
      repeat split; [now apply Forall_removeNth|now apply NoDup_removeNth].
    + repeat split; auto. rewrite downloads_app. simpl. now rewrite app_nil_r.
  - exists w. split; [reflexivity|].
    assert (Hnone : nth_error (objectURLs w) k = None).
    { rewrite Ht, nth_error_map in Hk.
      destruct (nth_error (objectURLs w) k); [discriminate|reflexivity]. }
    repeat split; auto.
    clear - Hnone. revert k Hnone. induction (objectURLs w) as [|x l IH]; intros [|k] H;
      simpl in *; try reflexivity; try discriminate.
    now rewrite <- IH.
Qed.

Lemma emitted_app (a b : list Action) : emitted (a ++ b) = emitted a ++ emitted b.
Proof.
  induction a as [|x a IH]; simpl; [reflexivity|].
  destruct x; simpl; now rewrite IH.
Qed.

Lemma run_app (a b : list Action) (w : World) :
  run (a ++ b) w
  = match run a w with Some (_, w1) => run b w1 | None => None end.
Proof.
  revert w. induction a as [|x a IH]; intros w; simpl app.
  - reflexivity.
  - rewrite !run_cons. destruct (step x w) as [[[] w1]|]; [apply IH|reflexivity].
Qed.

(** One action on a page where the hook is installed once, the log is
    in order and the links are paired: the action runs, a call when its
    name and text convert, and leaves such a page. *)
Lemma step_paired (f : HostFn) (a : Action) (w : World) (rs : list ChatRecord) :
  UI w = UIObject (Some (Hooked (Native f))) ->
  logIs w rs ->
  linksPaired w ->
  storableAction a = true ->
  exists w' rs',
    step a w = Some (tt, w')
    /\ logIs w' rs' /\ linksPaired w'
    /\ UI w' = UI w /\ menu w' = menu w /\ clock w' = clock w.
Proof.
  intros Hui Hlog Hlinks Hsa. pose proof Hlog as (tag & i & cls & attrs & Hc).
  destruct a as [this p t c|[|]|k].
  - eexists. eexists. split.
    { unfold step, invoke. unfold bind at 1 2, gets at 1. rewrite Hui.
      rewrite (call_hooked_native f this p t c w _ Hc Hsa). reflexivity. }
    split; [apply logIs_appendRecord; exists tag, i, cls, attrs; exact Hc|].
    split; [exact Hlinks|]. simpl. auto.
  - set (w0 := setOutput (output w ++ [ConsoleLog "Download chat button clicked"]) w).
    assert (Hlog0 : logIs w0 rs) by exact Hlog.
    assert (Hq0 : quiet w w0) by apply quiet_consoleLog.
    destruct (downloadLog_shape w0 rs Hlog0) as (w' & Hrun & Hshape).
    exists w', rs. split; [exact Hrun|].
    assert (Hq : exists w1, quiet w w1
                 /\ (w' = w1 \/ exists text filename, w' = saved text filename w1)).
    { destruct Hshape as [Hq | (text & filename & w1 & Hq & Hw' & _)].
      - exists w'. split; [exact (quiet_trans _ _ _ Hq0 Hq)|now left].
      - exists w1. split; [exact (quiet_trans _ _ _ Hq0 Hq)|right; eauto]. }
    destruct Hq as (w1 & Hq & Hw').
    pose proof (linksPaired_quiet _ _ Hq Hlinks) as Hl1.
    pose proof Hq as (Q1 & Q2 & Q3 & Q4 & _ & _ & _ & _ & _ & Q10 & _).
    destruct Hw' as [->|(text & filename & ->)].
    + split; [exists tag, i, cls, attrs; congruence|].
      split; [exact Hl1|]. simpl. auto.
    + split; [exists tag, i, cls, attrs; simpl; congruence|].
      split; [now apply linksPaired_saved|]. simpl. auto.
  - eexists. exists []. split.
    { exact (clearLog_run
               (setOutput (output w ++ [ConsoleLog "Clear chat button clicked"]) w)
               (DOM.Element tag i cls attrs (map entry rs)) Hc). }
    split; [exists tag, i, cls, attrs; reflexivity|].
    split; [exact Hlinks|]. simpl. auto.
  - destruct (fire_paired k w Hlinks)
      as (w' & Hrun & Hl' & Hh & Hu & Hm & Hc' & Hk & _).
    exists w', rs. split; [exact Hrun|].
    split; [exists tag, i, cls, attrs; congruence|]. auto.
Qed.

Lemma run_paired (f : HostFn) (actions : list Action) :
  Forall (fun a => storableAction a = true) actions ->
  forall (w : World) (rs : list ChatRecord),
    UI w = UIObject (Some (Hooked (Native f))) ->
    logIs w rs ->
    linksPaired w ->
    exists w' rs',
      run actions w = Some (tt, w')
      /\ logIs w' rs' /\ linksPaired w'
      /\ UI w' = UI w /\ menu w' = menu w /\ clock w' = clock w.
Proof.
  induction 1 as [|a actions Hsa Hrest IH]; intros w rs Hui Hlog Hlinks.
  - exists w, rs. simpl. auto 10.
  - destruct (step_paired f a w rs Hui Hlog Hlinks Hsa)
      as (w1 & rs1 & Hstep & Hlog1 & Hl1 & Hui1 & Hm1 & Hk1).
    destruct (IH w1 rs1 (eq_trans Hui1 Hui) Hlog1 Hl1)
      as (w' & rs' & Hrun & Hlog' & Hl' & Hui' & Hm' & Hk').
    exists w', rs'. split; [rewrite run_cons, Hstep; exact Hrun|].
    split; [exact Hlog'|]. split; [exact Hl'|].
    split; [congruence|]. split; congruence.
Qed.

(** X1.  On a page where the hook is installed once and every download
    link has its URL and its timer, any actions whose calls carry a
    player name and a text that convert to strings run, and leave the
    links paired: there are as many links in the body as timers pending,
    and once no timer is pending no link and no object URL is left. *)
Theorem links_released_by_their_timers
        (f : HostFn) (actions : list Action) (w : World) (rs : list ChatRecord) :
  UI w = UIObject (Some (Hooked (Native f))) ->
  logIs w rs ->
  linksPaired w ->
  Forall (fun a => storableAction a = true) actions ->
  exists w',
    run actions w = Some (tt, w')
    /\ linksPaired w'
    /\ List.length (anchors w') = List.length (timers w')
    /\ (timers w' = [] -> anchors w' = [] /\ objectURLs w' = []).
Proof.
  intros Hui Hlog Hlinks Hsa.
  destruct (run_paired f actions Hsa w rs Hui Hlog Hlinks) as (w' & rs' & Hrun & _ & Hl' & _).
  exists w'. split; [exact Hrun|]. split; [exact Hl'|].
  destruct Hl' as (Ha & Ht & _ & _). split.
  - rewrite Ht, length_map, <- Ha, length_map. reflexivity.
  - intros Hnil. rewrite Hnil in Ht. symmetry in Ht. apply map_eq_nil in Ht.
    rewrite Ht in Ha. apply map_eq_nil in Ha. auto.
Qed.

Lemma links_released_witness :
  exists w',
    run [ Emit ThisUI alice (JS.Str "hi") (JS.Num 0); Activate OnDownload; Fire 0 ] samplePage
    = Some (tt, w')
    /\ linksPaired w'
    /\ List.length (anchors w') = List.length (timers w')
    /\ (timers w' = [] -> anchors w' = [] /\ objectURLs w' = []).
Proof.
  apply (links_released_by_their_timers sampleAddChatLine _ samplePage []).
  - reflexivity.
  - do 4 eexists. reflexivity.
  - repeat split; constructor.
  - repeat constructor.
Defined.

Lemma removeNth_last {A : Type} (l : list A) (x : A) : removeNth (List.length l) (l ++ [x]) = l.
Proof. induction l as [|y l IH]; simpl; [reflexivity|now rewrite IH]. Qed.

Lemma nth_error_last {A : Type} (l : list A) (x : A) :
  nth_error (l ++ [x]) (List.length l) = Some x.
Proof. induction l as [|y l IH]; simpl; [reflexivity|exact IH]. Qed.

Lemma filter_anchors_fresh (c : nat) (a : DOM.Node) (l : list (nat * DOM.Node)) :
  Forall (fun u => u < c) (map fst l) ->
  filter (fun x => negb (fst x =? c)%nat) (l ++ [(c, a)]) = l.
Proof.
  induction l as [|[u n] l IH]; simpl; intros H.
  - now rewrite Nat.eqb_refl.
  - inversion H as [|? ? Hu Hl]; subst. simpl in Hu.
    destruct (Nat.eqb_spec u c) as [->|_]; [lia|]. simpl. now rewrite IH.
Qed.

Lemma filter_urls_fresh (c : nat) (l : list nat) :
  Forall (fun u => u < c) l ->
  filter (fun x => negb (x =? c)%nat) (l ++ [c]) = l.
Proof.
  induction l as [|u l IH]; simpl; intros H.
  - now rewrite Nat.eqb_refl.
  - inversion H as [|? ? Hu Hl]; subst.
    destruct (Nat.eqb_spec u c) as [->|_]; [lia|]. simpl. now rewrite IH.
Qed.

(** X3.  [downloadTextFile] saves the text under the name given, as
    plain text, and its timer undoes the rest: once that timer has
    fired, the links in the body, the live object URLs and the pending
    timers are what they were before the download. *)
Theorem download_then_cleanup_restores_links (text filename : string) (w : World) :
  linksPaired w ->
  exists w1 w2,
    downloadTextFile text filename w = Some (tt, w1)
    /\ output w1 = output w ++ [ ConsoleLog ("Downloading text file: " ++ filename);
                                 ConsoleLog "Triggering download...";
                                 Download filename text "text/plain" ]
    /\ List.length (anchors w1) = S (List.length (anchors w))
    /\ timers w1 = timers w ++ [Timeout 100 (Cleanup (created w))]
    /\ step (Fire (List.length (timers w))) w1 = Some (tt, w2)
    /\ anchors w2 = anchors w
    /\ objectURLs w2 = objectURLs w
    /\ timers w2 = timers w
    /\ output w2 = output w1 ++ [ConsoleLog "Download cleanup complete"]
    /\ logContainer w2 = logContainer w.
Proof.
  intros (Ha & Ht & Hlt & Hnd).
  exists (saved text filename w). eexists.
  split; [apply downloadTextFile_run|].
  split; [unfold saved; simpl; now rewrite <- !app_assoc|].
  split; [unfold saved; simpl; rewrite length_app; simpl; lia|].
  split; [reflexivity|].
  split.
  { unfold step. unfold bind at 1, gets at 1.
    change (timers (saved text filename w))
      with (timers w ++ [Timeout 100 (Cleanup (created w))]).
    rewrite nth_error_last. reflexivity. }
  simpl. rewrite removeNth_last.
  rewrite filter_anchors_fresh by (rewrite Ha; exact Hlt).
  rewrite filter_urls_fresh by exact Hlt.
  repeat split; auto.
Qed.

Lemma download_then_cleanup_witness :
  exists w1 w2,
    downloadTextFile "hello" "note.txt" samplePage = Some (tt, w1)
    /\ output w1 = output samplePage
                   ++ [ ConsoleLog ("Downloading text file: " ++ "note.txt");
                        ConsoleLog "Triggering download...";
                        Download "note.txt" "hello" "text/plain" ]
    /\ List.length (anchors w1) = S (List.length (anchors samplePage))
    /\ timers w1 = timers samplePage ++ [Timeout 100 (Cleanup (created samplePage))]
    /\ step (Fire (List.length (timers samplePage))) w1 = Some (tt, w2)
    /\ anchors w2 = anchors samplePage
    /\ objectURLs w2 = objectURLs samplePage
    /\ timers w2 = timers samplePage
    /\ output w2 = output w1 ++ [ConsoleLog "Download cleanup complete"]
    /\ logContainer w2 = logContainer samplePage.
Proof.
  apply (download_then_cleanup_restores_links "hello" "note.txt" samplePage).
  repeat split; constructor.
Defined.

Lemma bindingOf_UI (fn : closure) : bindingOf fn ThisUI = ThisUI.
Proof. destruct fn; reflexivity. Qed.

(** A call through any number of hooks over a function, with a name
    and a text that convert: the host's function runs once, on the page
    as it was found, then each hook logs the call, one clock reading
    each. *)
Lemma call_hooks (f : HostFn) (player text chatType : JS.value)
      (tag i : string) (cls : list string) (attrs : list (string * string)) :
  storable player text = true ->
  forall (fn : closure) (this : receiver) (w : World) (rs : list ChatRecord),
    nativeOf fn = Some f ->
    logContainer w = Some (DOM.Element tag i cls attrs (map entry rs)) ->
    exists v w',
      call fn this player text chatType w = Some (v, w')
      /\ logContainer w'
         = Some (DOM.Element tag i cls attrs
                   (map entry
                      (rs ++ map (fun k => normalize (clock w k) player text chatType)
                                 (seq (ticks w) (hooks fn)))))
      /\ host w' = snd (f (bindingOf fn this) player text chatType (body w) (host w))
      /\ ticks w' = ticks w + hooks fn
      /\ clock w' = clock w /\ UI w' = UI w /\ output w' = output w
      /\ v = match fn with
             | Hooked _ => JS.Undefined
             | _ => fst (f this player text chatType (body w) (host w))
             end.
Proof.
  intros Hs. induction fn as [g|g IH|u]; intros this w rs Hf Hc.
  - simpl in Hf. injection Hf as ->. simpl.
    destruct (f this player text chatType (body w) (host w)) as [v h] eqn:Hcall.
    eexists. eexists. split; [reflexivity|]. simpl.
    rewrite app_nil_r, Nat.add_0_r. auto 10.
  - destruct (IH ThisUI w rs Hf Hc)
      as (v1 & w1 & Hrun & Hc1 & Hh1 & Ht1 & Hk1 & Hu1 & Ho1 & _).
    eexists. eexists. split.
    { simpl. unfold bind at 1. rewrite Hrun. unfold bind at 1.
      rewrite (logMessage_run w1 _ player text chatType Hc1 Hs). reflexivity. }
    change (hooks (Hooked g)) with (S (hooks g)).
    rewrite seq_S.
    rewrite (map_app (fun k => normalize (clock w k) player text chatType)).
    rewrite app_assoc, (map_app entry).
    simpl. rewrite Hc1. simpl.
    rewrite Hk1, Ht1, Hh1, bindingOf_UI.
    repeat split; auto; lia.
  - discriminate.
Qed.

(** Through a hook, a call whose name or text does not convert raises,
    however many hooks there are. *)
Lemma call_hooks_raises (player text chatType : JS.value) :
  storable player text = false ->
  forall (fn : closure) (this : receiver) (w : World),
    call (Hooked fn) this player text chatType w = None.
Proof.
  intros Hs fn this w. simpl. unfold bind at 1.
  destruct (call fn ThisUI player text chatType w) as [[v w1]|]; [|reflexivity].
  unfold bind at 1. now rewrite logMessage_raises.
Qed.

(** X4.  Each run of [hookChatSystem] puts one more hook over what
    [UI.addChatLine] holds, and a call whose player name and text
    convert to strings then logs once for every hook: through [n] hooks
    over the host's function, that function runs once, on the page as it
    was found, and [n] equal records, but for their clock readings, are
    added (two when [init] ran twice).  The host's function is bound to
    [UI] as soon as there is a hook.  Through a hook a call whose name
    or text does not convert raises. *)
Theorem every_hook_logs_once
        (fn : closure) (f : HostFn) (this : receiver) (player text chatType : JS.value)
        (w : World) (rs : list ChatRecord) :
  UI w = UIObject (Some fn) ->
  nativeOf fn = Some f ->
  logIs w rs ->
  (storable player text = true ->
   exists v w',
     invoke this player text chatType w = Some (v, w')
     /\ logIs w' (rs ++ map (fun k => normalize (clock w k) player text chatType)
                            (seq (ticks w) (hooks fn)))
     /\ List.length (readAll w') = List.length (readAll w) + hooks fn
     /\ host w' = snd (f (bindingOf fn this) player text chatType (body w) (host w)))
  /\ (storable player text = false -> 0 < hooks fn ->
      invoke this player text chatType w = None)
  /\ (exists w1,
        hookChatSystem w = Some (tt, w1)
        /\ UI w1 = UIObject (Some (Hooked fn))
        /\ logContainer w1 = logContainer w
        /\ host w1 = host w).
Proof.
  intros Hui Hf Hlog. pose proof Hlog as (tag & i & cls & attrs & Hc).
  split; [|split].
  - intros Hs.
    destruct (call_hooks f player text chatType tag i cls attrs Hs fn this w rs Hf Hc)
      as (v & w' & Hrun & Hc' & Hh' & _).
    exists v, w'. split.
    { unfold invoke. unfold bind at 1, gets at 1. rewrite Hui. exact Hrun. }
    assert (Hlog' : logIs w' (rs ++ map (fun k => normalize (clock w k) player text chatType)
                                        (seq (ticks w) (hooks fn))))
      by (exists tag, i, cls, attrs; exact Hc').
    split; [exact Hlog'|]. split; [|exact Hh'].
    rewrite (readAll_logIs _ _ Hlog'), (readAll_logIs _ _ Hlog).
    rewrite !length_map, length_app, length_map, length_seq. reflexivity.
  - intros Hs Hn. unfold invoke. unfold bind at 1, gets at 1. rewrite Hui.
    destruct fn as [g|g|u]; simpl in Hn; try lia.
    now apply call_hooks_raises.
  - assert (Hp : present (Some fn) = true) by (destruct fn; [reflexivity|reflexivity|discriminate]).
    eexists. split.
    + unfold hookChatSystem. unfold bind at 1, gets at 1. rewrite Hui, Hp. reflexivity.
    + simpl. auto.
Qed.

Lemma every_hook_logs_once_witness :
  (exists v w',
     invoke ThisUI alice (JS.Str "hi") (JS.Num 0) rehookedPage = Some (v, w')
     /\ logIs w' [ normalize (sampleClock 0) alice (JS.Str "hi") (JS.Num 0);
                   normalize (sampleClock 1) alice (JS.Str "hi") (JS.Num 0) ]
     /\ List.length (readAll w') = 2
     /\ host w'
        = snd (sampleAddChatLine ThisUI alice (JS.Str "hi") (JS.Num 0)
                                 (body rehookedPage) (host rehookedPage)))
  /\ (exists w1,
        hookChatSystem rehookedPage = Some (tt, w1)
        /\ UI w1 = UIObject (Some (Hooked (Hooked (Hooked (Native sampleAddChatLine)))))
        /\ logContainer w1 = logContainer rehookedPage
        /\ host w1 = host rehookedPage).
Proof.
  destruct (every_hook_logs_once (Hooked (Hooked (Native sampleAddChatLine))) sampleAddChatLine
                                 ThisUI alice (JS.Str "hi") (JS.Num 0) rehookedPage [])
    as (Hlogs & _ & Hhook).
  - reflexivity.
  - reflexivity.
  - do 4 eexists. reflexivity.
  - split; [|exact Hhook].
    destruct (Hlogs eq_refl) as (v & w' & Hrun & Hlog & Hlen & Hhost).
    exists v, w'. split; [exact Hrun|]. split; [exact Hlog|]. split; [exact Hlen|exact Hhost].
Defined.

(** The calls [es] through one hook, nothing in between: one record
    each, stamped with the readings from [ticks w] on. *)
Lemma run_emits (f : HostFn) (es : list (JS.value * JS.value * JS.value)) :
  Forall (fun e => storable (fst (fst e)) (snd (fst e)) = true) es ->
  forall (w : World) (rs : list ChatRecord),
    UI w = UIObject (Some (Hooked (Native f))) ->
    logIs w rs ->
    exists w',
      run (emits es) w = Some (tt, w')
      /\ logIs w' (rs ++ stamped (clock w) (seq (ticks w) (List.length es)) es)
      /\ ticks w' = ticks w + List.length es
      /\ clock w' = clock w /\ UI w' = UI w /\ output w' = output w.
Proof.
  induction 1 as [|[[p t] c] es Hs Hrest IH]; intros w rs Hui Hlog.
  - exists w. simpl. rewrite app_nil_r, Nat.add_0_r. auto 10.
  - pose proof Hlog as (tag & i & cls & attrs & Hc). simpl in Hs.
    set (w1 := appendRecord (normalize (clock w (ticks w)) p t c)
                            (setHost (snd (f ThisUI p t c (body w) (host w))) w)).
    assert (Hstep : step (Emit ThisUI p t c) w = Some (tt, w1)).
    { unfold step, invoke. unfold bind at 1 2, gets at 1. rewrite Hui.
      rewrite (call_hooked_native f ThisUI p t c w _ Hc Hs). reflexivity. }
    assert (Hlog1 : logIs w1 (rs ++ [normalize (clock w (ticks w)) p t c])).
    { apply logIs_appendRecord. exists tag, i, cls, attrs. exact Hc. }
    destruct (IH w1 _ Hui Hlog1) as (w' & Hrun & Hlog' & Ht' & Hk' & Hu' & Ho').
    exists w'. split.
    { change (emits ((p, t, c) :: es)) with (Emit ThisUI p t c :: emits es).
      rewrite run_cons, Hstep. exact Hrun. }
    split.
    { rewrite <- app_assoc in Hlog'. exact Hlog'. }
    split; [rewrite Ht'; simpl; lia|]. auto.
Qed.

(** X5.  Calls whose player names and texts convert to strings,
    captured through the hook and then exported: the file holds what
    was in the log followed by one line for each call, in the order of
    the calls, each with the reading of the clock at its call; the file
    is named by the reading taken after them. *)
Theorem captured_calls_are_exported
        (f : HostFn) (es : list (JS.value * JS.value * JS.value))
        (w : World) (rs : list ChatRecord) :
  UI w = UIObject (Some (Hooked (Native f))) ->
  logIs w rs ->
  Forall (fun e => storable (fst (fst e)) (snd (fst e)) = true) es ->
  rs ++ stamped (clock w) (seq (ticks w) (List.length es)) es <> [] ->
  exists w',
    run (emits es ++ [Activate OnDownload]) w = Some (tt, w')
    /\ downloads (output w')
       = downloads (output w)
         ++ [ (("game-chat-log-" ++ fileStamp (clock w (ticks w + List.length es))
                                 ++ ".txt")%string,
               JS.join newline
                 (map renderLine
                    (rs ++ stamped (clock w) (seq (ticks w) (List.length es)) es))) ]
    /\ List.length (stamped (clock w) (seq (ticks w) (List.length es)) es) = List.length es.
Proof.
  intros Hui Hlog Hs Hne.
  destruct (run_emits f es Hs w rs Hui Hlog) as (w1 & Hrun & Hlog1 & Ht1 & Hk1 & _ & Ho1).
  remember (rs ++ stamped (clock w) (seq (ticks w) (List.length es)) es) as all eqn:Hall.
  destruct all as [|r all]; [congruence|].
  set (w0 := setOutput (output w1 ++ [ConsoleLog "Download chat button clicked"]) w1).
  assert (Hlog0 : logIs w0 (r :: all)) by exact Hlog1.
  eexists. split.
  { rewrite run_app, Hrun, run_cons.
    change (step (Activate OnDownload) w1) with (downloadLog w0).
    rewrite (downloadLog_primary w0 r all Hlog0). reflexivity. }
  split.
  - rewrite downloads_saved. simpl. rewrite !downloads_app. simpl.
    rewrite !app_nil_r, Ho1, Hk1, Ht1. reflexivity.
  - apply stamped_length. now rewrite length_seq.
Qed.

Lemma captured_calls_are_exported_witness :
  exists w',
    run (emits [(alice, JS.Str "hi", JS.Num 0); (bob, JS.Str "hey", JS.Num 3)]
         ++ [Activate OnDownload]) samplePage = Some (tt, w')
    /\ downloads (output w')
       = downloads (output samplePage)
         ++ [ (("game-chat-log-" ++ fileStamp (clock samplePage (ticks samplePage + 2))
                                 ++ ".txt")%string,
               JS.join newline
                 (map renderLine
                    ([] ++ stamped (clock samplePage) (seq (ticks samplePage) 2)
                                   [(alice, JS.Str "hi", JS.Num 0);
                                    (bob, JS.Str "hey", JS.Num 3)]))) ]
    /\ List.length (stamped (clock samplePage) (seq (ticks samplePage) 2)
                            [(alice, JS.Str "hi", JS.Num 0); (bob, JS.Str "hey", JS.Num 3)])
       = 2.
Proof.
  apply (captured_calls_are_exported sampleAddChatLine
           [(alice, JS.Str "hi", JS.Num 0); (bob, JS.Str "hey", JS.Num 3)] samplePage []).
  - reflexivity.
  - do 4 eexists. reflexivity.
  - repeat constructor.
  - discriminate.
Defined.

(** One export of a log that is not empty. *)
Lemma export_once (w : World) (r : ChatRecord) (rs : list ChatRecord) :
  logIs w (r :: rs) ->
  exists w',
    step (Activate OnDownload) w = Some (tt, w')
    /\ logContainer w' = logContainer w
    /\ savedTexts w' = savedTexts w ++ [JS.join newline (map renderLine (r :: rs))].
Proof.
  intros Hlog.
  set (w0 := setOutput (output w ++ [ConsoleLog "Download chat button clicked"]) w).
  assert (Hlog0 : logIs w0 (r :: rs)) by exact Hlog.
  eexists. split; [exact (downloadLog_primary w0 r rs Hlog0)|].
  split; [reflexivity|].
  unfold savedTexts. rewrite downloads_saved. simpl. rewrite !downloads_app. simpl.
  rewrite !app_nil_r, map_app. reflexivity.
Qed.

(** X6.  Exporting reads the log and leaves it as it is: however many
    times in a row a log that is not empty is exported, every file
    holds the same text and the log container is unchanged. *)
Theorem export_is_repeatable (n : nat) (w : World) (r : ChatRecord) (rs : list ChatRecord) :
  logIs w (r :: rs) ->
  exists w',
    run (repeat (Activate OnDownload) n) w = Some (tt, w')
    /\ logContainer w' = logContainer w
    /\ savedTexts w' = savedTexts w ++ repeat (JS.join newline (map renderLine (r :: rs))) n.
Proof.
  revert w. induction n as [|n IH]; intros w Hlog.
  - exists w. simpl. now rewrite app_nil_r.
  - destruct (export_once w r rs Hlog) as (w1 & Hstep & Hc1 & Hs1).
    assert (Hlog1 : logIs w1 (r :: rs)).
    { destruct Hlog as (tag & i & cls & attrs & Hc). exists tag, i, cls, attrs. congruence. }
    destruct (IH w1 Hlog1) as (w' & Hrun & Hc' & Hs').
    exists w'. split.
    { change (repeat (Activate OnDownload) (S n))
        with (Activate OnDownload :: repeat (Activate OnDownload) n).
      rewrite run_cons, Hstep. exact Hrun. }
    split; [congruence|].
    rewrite Hs', Hs1, <- app_assoc. reflexivity.
Qed.

Lemma export_is_repeatable_witness :
  exists w',
    run (repeat (Activate OnDownload) 3) chattedPage = Some (tt, w')
    /\ logContainer w' = logContainer chattedPage
    /\ savedTexts w'
       = savedTexts chattedPage
         ++ repeat (JS.join newline
                      (map renderLine
                         (normalize (sampleClock 0) alice (JS.Str "hi") (JS.Num 0)
                          :: [normalize (sampleClock 1) bob (JS.Str "hey") (JS.Num 3)]))) 3.
Proof.
  apply (export_is_repeatable 3 chattedPage).
  do 4 eexists. reflexivity.
Defined.

(** X7.  After a clear, an export takes nothing from what the log held:
    it goes to the chat lines of the page.  Without a chat container,
    or without a chat line in it, no file is saved; otherwise the file
    holds the lines shown on the page, stamped at the export. *)
Theorem export_after_clear_reads_the_page (w : World) (rs : list ChatRecord) :
  logIs w rs ->
  exists w1 w2,
    step (Activate OnClear) w = Some (tt, w1)
    /\ readAll w1 = []
    /\ step (Activate OnDownload) w1 = Some (tt, w2)
    /\ readAll w2 = []
    /\ (DOM.getElementById "chatlines" (body w1) = None -> savedTexts w2 = savedTexts w)
    /\ (forall chatLines,
          DOM.getElementById "chatlines" (body w1) = Some chatLines ->
          let divs := DOM.querySelectorAll (DOM.mkSelector (Some "div") (Some "line"))
                                           chatLines in
          (divs = [] -> savedTexts w2 = savedTexts w)
          /\ (divs <> [] ->
              savedTexts w2
              = savedTexts w ++ [JS.join newline (scrapeAll (clock w) (ticks w) divs)])).
Proof.
  intros (tag & i & cls & attrs & Hc).
  set (w1 := setOutput
               (output w ++ [ConsoleLog "Clear chat button clicked";
                             ConsoleLog "Clearing chat log..."; Alert "Chat log cleared"])
               (setLogContainer (Some (DOM.Element tag i cls attrs [])) w)).
  assert (Hrun1 : step (Activate OnClear) w = Some (tt, w1)).
  { change (step (Activate OnClear) w)
      with (clearLog (setOutput (output w ++ [ConsoleLog "Clear chat button clicked"]) w)).
    rewrite (clearLog_run _ (DOM.Element tag i cls attrs (map entry rs))) by exact Hc.
    unfold w1, setOutput, setLogContainer. simpl. now rewrite <- app_assoc. }
  assert (Hlog1 : logIs w1 []) by (exists tag, i, cls, attrs; reflexivity).
  set (w0 := setOutput
               (output w1 ++ [ConsoleLog "Download chat button clicked";
                              ConsoleLog "Attempting to download chat log...";
                              ConsoleLog "No logged entries found, falling back to DOM extraction"])
               w1).
  assert (Hfall : step (Activate OnDownload) w1 = downloadCurrentChat w0).
  { change (step (Activate OnDownload) w1)
      with (downloadLog (setOutput (output w1 ++ [ConsoleLog "Download chat button clicked"]) w1)).
    rewrite downloadLog_fallback by exact Hlog1.
    f_equal. unfold w0, setOutput. simpl. now rewrite <- !app_assoc. }
  assert (Hs0 : savedTexts w0 = savedTexts w).
  { unfold savedTexts, w0, w1. simpl. rewrite !downloads_app. simpl.
    now rewrite !app_nil_r. }
  destruct (downloadCurrentChat_extends w0) as (w2 & Hrun2 & Hext).
  exists w1, w2. split; [exact Hrun1|]. split; [reflexivity|].
  split; [rewrite Hfall; exact Hrun2|].
  split.
  { destruct Hext as (Hc2 & _). unfold readAll. rewrite Hc2. reflexivity. }
  split.
  - intros Hnone. rewrite (downloadCurrentChat_no_container w0 Hnone) in Hrun2.
    injection Hrun2 as <-. rewrite <- Hs0. unfold savedTexts. simpl.
    rewrite downloads_app. simpl. now rewrite app_nil_r.
  - intros chatLines Hsome divs. split.
    + intros Hnil. rewrite (downloadCurrentChat_no_line w0 chatLines Hsome Hnil) in Hrun2.
      injection Hrun2 as <-. rewrite <- Hs0. unfold savedTexts. simpl.
      rewrite downloads_app. simpl. now rewrite app_nil_r.
    + intros Hne.
      destruct (downloadCurrentChat_lines w0 chatLines Hsome Hne) as (w2' & Hrun2' & _ & Hout).
      rewrite Hrun2' in Hrun2. injection Hrun2 as <-.
      unfold savedTexts in *. rewrite Hout, map_app, Hs0. reflexivity.
Qed.

Lemma export_after_clear_witness :
  exists w1 w2,
    step (Activate OnClear) chattedPage = Some (tt, w1)
    /\ readAll w1 = []
    /\ step (Activate OnDownload) w1 = Some (tt, w2)
    /\ readAll w2 = []
    /\ (DOM.getElementById "chatlines" (body w1) = None ->
        savedTexts w2 = savedTexts chattedPage)
    /\ (forall chatLines,
          DOM.getElementById "chatlines" (body w1) = Some chatLines ->
          let divs := DOM.querySelectorAll (DOM.mkSelector (Some "div") (Some "line"))
                                           chatLines in
          (divs = [] -> savedTexts w2 = savedTexts chattedPage)
          /\ (divs <> [] ->
              savedTexts w2
              = savedTexts chattedPage
                ++ [JS.join newline
                      (scrapeAll (clock chattedPage) (ticks chattedPage) divs)])).
Proof.
  apply (export_after_clear_reads_the_page chattedPage sampleRecords).
  do 4 eexists. reflexivity.
Defined.

(** An export runs whatever the container holds. *)
Lemma downloadLog_runs (w : World) (c : DOM.Node) :
  logContainer w = Some c -> exists w', downloadLog w = Some (tt, w').
Proof.
  intros Hc. unfold downloadLog, theLogContainer, consoleLog.
  unfold bind, gets, modify, throw. cbv beta iota.
  change (logContainer (setOutput _ w)) with (logContainer w).
  rewrite Hc. unfold ret at 1. cbv beta iota zeta.
  destruct (List.length (DOM.querySelectorAll (DOM.mkSelector (Some "div") None) c) =? 0)%nat.
  - match goal with |- context [downloadCurrentChat ?w0] =>
      destruct (downloadCurrentChat_extends w0) as (w' & Hrun & _) end.
    exists w'. exact Hrun.
  - rewrite (forEachPush_pure formatEntry). cbv beta iota.
    unfold newDate. cbv beta iota. rewrite downloadTextFile_run. eexists. reflexivity.
Qed.

(** Without the log container [logMessage] raises, at [appendChild] if
    not before. *)
Lemma logMessage_no_container (w : World) (player text chatType : JS.value) :
  logContainer w = None ->
  logMessage player text chatType w = None.
Proof.
  intros Hc. destruct (storable player text) eqn:Hs; [|now apply logMessage_raises].
  destruct (storable_converts _ _ Hs) as (Hn & Ht).
  unfold playerNameOf in Hn.
  unfold logMessage, newDate, theLogContainer, setAttribute, DOM.setAttribute.
  unfold bind, gets, modify, ret, throw. cbv beta iota.
  repeat first [ rewrite Hn | rewrite Ht | progress cbn [JS.ToString] | progress cbv beta iota ].
  cbn [logContainer setTicks]. rewrite Hc.
  reflexivity.
Qed.

(** No call gives the page a log container. *)
Lemma call_no_container (player text chatType : JS.value) (fn : closure) :
  forall (this : receiver) (w w1 : World) (v : JS.value),
    logContainer w = None ->
    call fn this player text chatType w = Some (v, w1) ->
    logContainer w1 = None.
Proof.
  induction fn as [f|g IH|u]; intros this w w1 v Hc Hcall.
  - simpl in Hcall. destruct (f this player text chatType (body w) (host w)).
    injection Hcall as _ <-. exact Hc.
  - simpl in Hcall. unfold bind at 1 in Hcall.
    destruct (call g ThisUI player text chatType w) as [[v0 w0]|] eqn:Hg; [|discriminate].
    unfold bind at 1 in Hcall.
    rewrite (logMessage_no_container w0) in Hcall by exact (IH _ _ _ _ Hc Hg).
    discriminate.
  - discriminate.
Qed.

(** X8.  Before [init] has made the log container ([logContainer] is
    [null]), logging a message, clearing and exporting each raise; once
    the container is there, clearing and exporting run, whatever it
    holds, and logging runs when the player's name and the text convert
    to strings, and raises when one does not.  A call through the hook
    raises before [init] as well, after the host's function ran. *)
Theorem container_is_needed (player text chatType : JS.value) (w : World) :
  (logMessage player text chatType w = None
   <-> logContainer w = None \/ storable player text = false)
  /\ (clearLog w = None <-> logContainer w = None)
  /\ (downloadLog w = None <-> logContainer w = None)
  /\ (forall fn this, logContainer w = None ->
        call (Hooked fn) this player text chatType w = None).
Proof.
  destruct (logContainer w) as [c|] eqn:Hc.
  - split; [|split; [|split]].
    + destruct (storable player text) eqn:Hs.
      * rewrite (logMessage_run w c) by assumption.
        split; [discriminate|]. intros [H|H]; discriminate.
      * rewrite logMessage_raises by exact Hs. split; auto.
    + rewrite (clearLog_run w c) by exact Hc. split; discriminate.
    + destruct (downloadLog_runs w c Hc) as (w' & ->). split; discriminate.
    + discriminate.
  - split; [|split; [|split]].
    + rewrite logMessage_no_container by exact Hc. split; auto.
    + split; [reflexivity|]. intros _.
      unfold clearLog, theLogContainer, consoleLog. unfold bind, gets, modify, throw. simpl.
      rewrite Hc. reflexivity.
    + split; [reflexivity|]. intros _.
      unfold downloadLog, theLogContainer, consoleLog. unfold bind, gets, modify, throw. simpl.
      rewrite Hc. reflexivity.
    + intros fn this _. simpl. unfold bind at 1.
      destruct (call fn ThisUI player text chatType w) as [[v w1]|] eqn:Hcall; [|reflexivity].
      unfold bind at 1.
      rewrite (logMessage_no_container w1) by exact (call_no_container _ _ _ _ _ _ _ _ Hc Hcall).
      reflexivity.
Qed.

Lemma plainPad_2 (n : nat) : n < 100 -> plainPad 2 n = true.
Proof.
  intros Hn.
  assert (Hall : forallb (plainPad 2) (seq 0 100) = true) by (vm_compute; reflexivity).
  rewrite forallb_forall in Hall. apply Hall. apply in_seq. lia.
Qed.

Lemma plainPad_4 (n : nat) : (Z.of_nat n < 10000)%Z -> plainPad 4 n = true.
Proof.
  intros Hn.
  assert (Hall : forallb (plainPad 4) (seq 0 (Z.to_nat 10000)) = true)
    by (vm_compute; reflexivity).
  rewrite forallb_forall in Hall. apply Hall. apply in_seq. lia.
Qed.

Lemma pad_2_chars (n : nat) :
  n < 100 ->
  exists a b,
    JS.pad 2 n = String a (String b EmptyString)
    /\ Ascii.eqb a "T" = false /\ Ascii.eqb b "T" = false
    /\ Ascii.eqb a ":" = false /\ Ascii.eqb b ":" = false.
Proof.
  intros Hn. pose proof (plainPad_2 n Hn) as H. unfold plainPad in H.
  destruct (JS.pad 2 n) as [|a [|b [|c r]]]; try discriminate.
  - exists a, b. simpl in H.
    destruct (Ascii.eqb a "T"), (Ascii.eqb b "T"), (Ascii.eqb a ":"), (Ascii.eqb b ":");
      try discriminate. auto.
  - destruct r as [|d [|e r]]; simpl in H; discriminate.
Qed.

Lemma pad_4_chars (n : nat) :
  (Z.of_nat n < 10000)%Z ->
  exists a b c d,
    JS.pad 4 n = String a (String b (String c (String d EmptyString)))
    /\ Ascii.eqb a "T" = false /\ Ascii.eqb b "T" = false
    /\ Ascii.eqb c "T" = false /\ Ascii.eqb d "T" = false
    /\ Ascii.eqb a ":" = false /\ Ascii.eqb b ":" = false
    /\ Ascii.eqb c ":" = false /\ Ascii.eqb d ":" = false.
Proof.
  intros Hn. pose proof (plainPad_4 n Hn) as H. unfold plainPad in H.
  destruct (JS.pad 4 n) as [|a [|b [|c [|d [|e r]]]]]; try discriminate.
  exists a, b, c, d. simpl in H.
  destruct (Ascii.eqb a "T"), (Ascii.eqb b "T"), (Ascii.eqb c "T"), (Ascii.eqb d "T"),
           (Ascii.eqb a ":"), (Ascii.eqb b ":"), (Ascii.eqb c ":"), (Ascii.eqb d ":");
    try discriminate. auto 10.
Qed.

(** X9.  For a clock reading with a year from 0 to 9999, the time
    stored with a message whose player name and text convert to strings
    is [YYYY-MM-DD HH:MM:SS], nineteen characters, the milliseconds
    dropped; the stamp of a file name is the same with [T] for the space
    and dashes for the colons. *)
Theorem timestamp_format
        (player text chatType : JS.value) (w : World) (rs : list ChatRecord) :
  logIs w rs ->
  storable player text = true ->
  plainDate (clock w (ticks w)) ->
  let d := clock w (ticks w) in
  let date := (JS.pad 4 (Z.to_nat (JS.year d)) ++ "-" ++ JS.pad 2 (JS.month d)
               ++ "-" ++ JS.pad 2 (JS.day d))%string in
  exists r w',
    logMessage player text chatType w = Some (tt, w')
    /\ logIs w' (rs ++ [r])
    /\ dataTimestamp r
       = (date ++ " " ++ JS.pad 2 (JS.hours d) ++ ":" ++ JS.pad 2 (JS.minutes d)
               ++ ":" ++ JS.pad 2 (JS.seconds d))%string
    /\ String.length (dataTimestamp r) = 19
    /\ fileStamp d
       = (date ++ "T" ++ JS.pad 2 (JS.hours d) ++ "-" ++ JS.pad 2 (JS.minutes d)
               ++ "-" ++ JS.pad 2 (JS.seconds d))%string.
Proof.
  intros Hlog Hst Hplain d date.
  pose proof Hlog as (tag & i & cls & attrs & Hc).
  exists (normalize d player text chatType). eexists.
  split; [exact (logMessage_run w _ player text chatType Hc Hst)|].
  split; [now apply logIs_appendRecord|].
  fold d in Hplain. clearbody d. destruct Hplain as (Hy & Hmo & Hd & Hh & Hmi & Hs).
  assert (Hyn : (Z.of_nat (Z.to_nat (JS.year d)) < 10000)%Z) by lia.
  destruct (pad_4_chars _ Hyn)
    as (y1 & y2 & y3 & y4 & Ey & Y1 & Y2 & Y3 & Y4 & Y5 & Y6 & Y7 & Y8).
  destruct (pad_2_chars _ Hmo) as (m1 & m2 & Em & M1 & M2 & M3 & M4).
  destruct (pad_2_chars _ Hd) as (d1 & d2 & Ed & D1 & D2 & D3 & D4).
  destruct (pad_2_chars _ Hh) as (h1 & h2 & Eh & H1 & H2 & H3 & H4).
  destruct (pad_2_chars _ Hmi) as (i1 & i2 & Ei & I1 & I2 & I3 & I4).
  destruct (pad_2_chars _ Hs) as (s1 & s2 & Es & S1 & S2 & S3 & S4).
  assert (Hiso : JS.isoYear (JS.year d) = JS.pad 4 (Z.to_nat (JS.year d))).
  { unfold JS.isoYear.
    destruct (Z.leb_spec 0 (JS.year d)); [|lia].
    destruct (Z.leb_spec (JS.year d) 9999); [reflexivity|lia]. }
  unfold date, fileStamp, normalize, dataTimestamp, JS.toISOString.
  rewrite Hiso. rewrite Ey, Em, Ed, Eh, Ei, Es.
  cbn [JS.slice0 substring String.append JS.replaceFirst JS.replaceAll String.length].
  rewrite ?Y1, ?Y2, ?Y3, ?Y4, ?Y5, ?Y6, ?Y7, ?Y8, ?M1, ?M2, ?M3, ?M4, ?D1, ?D2, ?D3, ?D4,
          ?H1, ?H2, ?H3, ?H4, ?I1, ?I2, ?I3, ?I4, ?S1, ?S2, ?S3, ?S4.
  repeat split; reflexivity.
Qed.

Lemma timestamp_format_witness :
  exists r w',
    logMessage alice (JS.Str "hi") (JS.Num 0) samplePage = Some (tt, w')
    /\ logIs w' ([] ++ [r])
    /\ dataTimestamp r = "2024-01-02 03:04:05"
    /\ String.length (dataTimestamp r) = 19
    /\ fileStamp (clock samplePage (ticks samplePage)) = "2024-01-02T03-04-05".
Proof.
  apply (timestamp_format alice (JS.Str "hi") (JS.Num 0) samplePage []).
  - do 4 eexists. reflexivity.
  - reflexivity.
  - unfold plainDate. simpl. lia.
Defined.

(** [init] on a page where the framework is there and [UI] is not
    [null]. *)
Lemma init_run (w : World) (pages : list (string * list MenuItem)) :
  menu w = Some pages ->
  UI w <> NullUI ->
  exists w',
    init w = Some (true, w')
    /\ UI w' = hookedUI (UI w)
    /\ logContainer w'
       = Some (DOM.Element "div" "chat-log-container" [] [("style", "display: none;")] [])
    /\ retired w'
       = retired w ++ match logContainer w with Some c => [c] | None => [] end
    /\ menu w' = Some (pages ++ [("Chat Options", chatOptions)])
    /\ output w'
       = output w
         ++ [ if hookable (UI w)
              then ConsoleLog "Successfully hooked into chat system"
              else ConsoleError "UI.addChatLine not found, chat logging not available";
              ConsoleLog "Chat Logger initialized" ]
    /\ host w' = host w /\ timers w' = timers w /\ anchors w' = anchors w
    /\ objectURLs w' = objectURLs w /\ created w' = created w
    /\ clock w' = clock w /\ ticks w' = ticks w.
Proof.
  intros Hmenu Hnull. unfold init, hookChatSystem, consoleLog, consoleError.
  unfold bind, gets, modify, throw. cbv beta iota.
  change (UI (setLogContainer _ (setRetired _ w))) with (UI w).
  destruct (UI w) as [| |[fn|]] eqn:Hui; [|congruence| |]; cbv beta iota.
  - change (menu (setOutput _ (setOutput _ (setLogContainer _ (setRetired _ w)))))
      with (menu w).
    rewrite Hmenu. eexists. split; [reflexivity|]. simpl.
    rewrite <- app_assoc, ?Hui. repeat split; reflexivity.
  - unfold hookedUI, hookable. destruct (present (Some fn)); cbv beta iota.
    + change (menu (setOutput _ (setOutput _ (setUI _ (setLogContainer _ (setRetired _ w))))))
        with (menu w).
      rewrite Hmenu. eexists. split; [reflexivity|]. simpl.
      rewrite <- app_assoc. repeat split; reflexivity.
    + change (menu (setOutput _ (setOutput _ (setLogContainer _ (setRetired _ w)))))
        with (menu w).
      rewrite Hmenu. eexists. split; [reflexivity|]. simpl.
      rewrite <- app_assoc, ?Hui. repeat split; reflexivity.
  - change (menu (setOutput _ (setOutput _ (setLogContainer _ (setRetired _ w)))))
      with (menu w).
    rewrite Hmenu. eexists. split; [reflexivity|]. simpl.
    rewrite <- app_assoc, ?Hui. repeat split; reflexivity.
Qed.

(** Where [UI] is [null], [init] raises at [UI.addChatLine]. *)
Lemma init_null (w : World) : UI w = NullUI -> init w = None.
Proof.
  intros Hui. unfold init, hookChatSystem.
  unfold bind, gets, modify, throw. cbv beta iota.
  change (UI (setLogContainer _ (setRetired _ w))) with (UI w).
  rewrite Hui. reflexivity.
Qed.



(** X11.  Run where the menu framework is missing, the script does
    nothing but start a poll of 100 ms.  A poll that finds the framework
    still missing changes nothing and stays pending; the poll that finds
    it retires itself and runs [init], which sets the extension up where
    [UI] is not [null] and raises where it is. *)
Theorem framework_is_polled_for (w : World) :
  menu w = None ->
  exists w1,
    main w = Some (tt, w1)
    /\ w1 = setTimers (timers w ++ [Interval 100 CheckFramework]) w
    /\ step (Fire (List.length (timers w))) w1 = Some (tt, w1)
    /\ (forall pages,
          step (Fire (List.length (timers w))) (setMenu (Some pages) w1)
          = match init (setTimers (timers w) (setMenu (Some pages) w)) with
            | Some (_, w2) => Some (tt, w2)
            | None => None
            end)
    /\ (forall pages,
          UI w <> NullUI ->
          exists w2,
            step (Fire (List.length (timers w))) (setMenu (Some pages) w1) = Some (tt, w2)
            /\ timers w2 = timers w
            /\ logIs w2 []
            /\ menu w2 = Some (pages ++ [("Chat Options", chatOptions)])
            /\ UI w2 = hookedUI (UI w))
    /\ (forall pages,
          UI w = NullUI ->
          step (Fire (List.length (timers w))) (setMenu (Some pages) w1) = None).
Proof.
  intros Hmenu.
  assert (Hfire : forall pages,
             step (Fire (List.length (timers w)))
                  (setMenu (Some pages) (setTimers (timers w ++ [Interval 100 CheckFramework]) w))
             = match init (setTimers (timers w) (setMenu (Some pages) w)) with
               | Some (_, w2) => Some (tt, w2)
               | None => None
               end).
  { intros pages. unfold step. unfold bind at 1, gets at 1.
    change (timers (setMenu (Some pages)
                      (setTimers (timers w ++ [Interval 100 CheckFramework]) w)))
      with (timers w ++ [Interval 100 CheckFramework]).
    rewrite nth_error_last. cbv beta iota.
    unfold runCallback. unfold bind at 1, gets at 1.
    change (menu (setMenu (Some pages)
                    (setTimers (timers w ++ [Interval 100 CheckFramework]) w)))
      with (Some pages).
    cbv beta iota. unfold bind at 1, modify at 1.
    change (timers (setMenu (Some pages)
                      (setTimers (timers w ++ [Interval 100 CheckFramework]) w)))
      with (timers w ++ [Interval 100 CheckFramework]).
    rewrite removeNth_last. unfold bind at 1.
    change (setTimers (timers w)
              (setMenu (Some pages)
                 (setTimers (timers w ++ [Interval 100 CheckFramework]) w)))
      with (setTimers (timers w) (setMenu (Some pages) w)).
    destruct (init (setTimers (timers w) (setMenu (Some pages) w))) as [[b w2]|];
      reflexivity. }
  eexists. split.
  { unfold main. unfold bind at 1, gets at 1. rewrite Hmenu. reflexivity. }
  split; [reflexivity|]. split; [|split; [exact Hfire|split]].
  - unfold step. unfold bind at 1, gets at 1.
    change (timers (setTimers (timers w ++ [Interval 100 CheckFramework]) w))
      with (timers w ++ [Interval 100 CheckFramework]).
    rewrite nth_error_last. cbv beta iota.
    unfold runCallback. unfold bind at 1, gets at 1.
    change (menu (setTimers (timers w ++ [Interval 100 CheckFramework]) w)) with (menu w).
    rewrite Hmenu. reflexivity.
  - intros pages Hnull.
    destruct (init_run (setTimers (timers w) (setMenu (Some pages) w)) pages eq_refl Hnull)
      as (w2 & Hrun & Hui & Hc & _ & Hm & _ & _ & Ht & _).
    exists w2. split; [rewrite Hfire, Hrun; reflexivity|].
    split; [exact Ht|]. split; [do 4 eexists; exact Hc|]. split; [exact Hm|exact Hui].
  - intros pages Hnull. rewrite Hfire.
    rewrite (init_null (setTimers (timers w) (setMenu (Some pages) w)) Hnull). reflexivity.
Qed.

Lemma framework_is_polled_for_witness :
  exists w1,
    main barePage = Some (tt, w1)
    /\ step (Fire 0) w1 = Some (tt, w1)
    /\ exists w2,
         step (Fire 0) (setMenu (Some []) w1) = Some (tt, w2)
         /\ timers w2 = []
         /\ logIs w2 []
         /\ menu w2 = Some [("Chat Options", chatOptions)]
         /\ UI w2 = NoUI.
Proof.
  destruct (framework_is_polled_for barePage eq_refl)
    as (w1 & Hmain & _ & Hidle & _ & Hfound & _).
  exists w1. split; [exact Hmain|]. split; [exact Hidle|].
  apply (Hfound []). discriminate.
Defined.

Lemma scrapeAll_nth (clk : nat -> JS.Date) (divs : list DOM.Node) :
  forall (k0 k : nat) (div : DOM.Node),
    nth_error divs k = Some div ->
    nth_error (scrapeAll clk k0 divs) k = Some (scrapeAt (clk (k0 + k)) div).
Proof.
  induction divs as [|x divs IH]; intros k0 [|k] div H; simpl in *; try discriminate.
  - injection H as ->. now rewrite Nat.add_0_r.
  - rewrite (IH (S k0) k div H). do 3 f_equal. lia.
Qed.

(** X12.  With an empty log, an export of a page that shows chat lines
    saves one line for each [div.line] of the chat container, in the
    order of the page, in the file [game-chat-<stamp>.txt].  The line of
    the k-th one is made with the k-th clock reading of the export, not
    with a time of the message; a chat line without tag, nick and text
    gives ["[time] : "].  The log stays empty. *)
Theorem fallback_export_scrapes_the_page (w : World) (chatLines : DOM.Node) :
  let divs := DOM.querySelectorAll (DOM.mkSelector (Some "div") (Some "line")) chatLines in
  logIs w [] ->
  DOM.getElementById "chatlines" (body w) = Some chatLines ->
  divs <> [] ->
  exists w',
    step (Activate OnDownload) w = Some (tt, w')
    /\ downloads (output w')
       = downloads (output w)
         ++ [ (("game-chat-" ++ fileStamp (clock w (ticks w + List.length divs))
                             ++ ".txt")%string,
               JS.join newline (scrapeAll (clock w) (ticks w) divs)) ]
    /\ List.length (scrapeAll (clock w) (ticks w) divs) = List.length divs
    /\ (forall k div,
          nth_error divs k = Some div ->
          nth_error (scrapeAll (clock w) (ticks w) divs) k
          = Some (scrapeAt (clock w (ticks w + k)) div))
    /\ (forall d div,
          DOM.querySelector (DOM.mkSelector None (Some "tag")) div = None ->
          DOM.querySelector (DOM.mkSelector None (Some "nick")) div = None ->
          DOM.querySelector (DOM.mkSelector None (Some "text")) div = None ->
          scrapeAt d div
          = ("[" ++ JS.replaceFirst "T" " " (JS.slice0 19 (JS.toISOString d)) ++ "] : ")%string)
    /\ readAll w' = [].
Proof.
  intros divs Hlog Hsome Hne.
  set (w0 := setOutput
               (output w ++ [ConsoleLog "Download chat button clicked";
                             ConsoleLog "Attempting to download chat log...";
                             ConsoleLog "No logged entries found, falling back to DOM extraction"])
               w).
  assert (Hfall : step (Activate OnDownload) w = downloadCurrentChat w0).
  { change (step (Activate OnDownload) w)
      with (downloadLog (setOutput (output w ++ [ConsoleLog "Download chat button clicked"]) w)).
    rewrite downloadLog_fallback by exact Hlog.
    f_equal. unfold w0, setOutput. simpl. now rewrite <- !app_assoc. }
  destruct (downloadCurrentChat_lines w0 chatLines Hsome Hne) as (w' & Hrun & Hext & Hout).
  exists w'. split; [rewrite Hfall; exact Hrun|]. split.
  { rewrite Hout. unfold w0. simpl. rewrite !downloads_app. simpl.
    now rewrite !app_nil_r. }
  split; [apply scrapeAll_length|]. split; [intros k div; apply scrapeAll_nth|]. split.
  - intros d div Htag Hnick Htext. unfold scrapeAt. rewrite Htag, Hnick, Htext. reflexivity.
  - destruct Hext as (Hc & _). unfold readAll. rewrite Hc.
    exact (readAll_logIs w [] Hlog).
Qed.

Lemma fallback_export_scrapes_witness :
  exists w',
    step (Activate OnDownload) clearedPage = Some (tt, w')
    /\ downloads (output w')
       = downloads (output clearedPage)
         ++ [ ("game-chat-2024-01-02T03-04-07.txt",
               ("[2024-01-02 03:04:05] Alice: hi" ++ newline
                ++ "[2024-01-02 03:04:06] Bob: hey")%string) ]
    /\ readAll w' = [].
Proof.
  destruct (fallback_export_scrapes_the_page clearedPage
              (DOM.Element "div" "chatlines" [] []
                 [ DOM.Element "div" "" ["line"] []
                     [ DOM.Element "span" "" ["nick"] [] [DOM.Text "Alice"];
                       DOM.Element "span" "" ["text"] [] [DOM.Text "hi"] ];
                   DOM.Element "div" "" ["line"] []
                     [ DOM.Element "span" "" ["nick"] [] [DOM.Text "Bob"];
                       DOM.Element "span" "" ["text"] [] [DOM.Text "hey"] ] ]))
    as (w' & Hrun & Hout & _ & _ & _ & Hread).
  - do 4 eexists. reflexivity.
  - reflexivity.
  - discriminate.
  - exists w'. split; [exact Hrun|]. split; [exact Hout|exact Hread].
Defined.

Lemma linksPaired_cleanups (w : World) : linksPaired w -> Forall isCleanup (timers w).
Proof.
  intros (_ & Ht & _). rewrite Ht. apply Forall_forall. intros t Hin.
  apply in_map_iff in Hin. destruct Hin as (u & <- & _). exact I.
Qed.

(** X13.  A clear forgets what came before it and nothing that comes
    after: whatever happened up to a clear, the log afterwards holds one
    record for each call made since, in the order of the calls, and
    nothing else.  The calls, before and after, are calls that are
    captured: their player names and texts convert to strings. *)
Theorem clear_forgets_only_the_past
        (f : HostFn) (before later : list Action) (w : World) (rs : list ChatRecord) :
  UI w = UIObject (Some (Hooked (Native f))) ->
  logIs w rs ->
  linksPaired w ->
  Forall (fun a => storableAction a = true) before ->
  Forall (fun a => a <> Activate OnClear) later ->
  Forall (fun a => storableAction a = true) later ->
  exists w' ks,
    run (before ++ Activate OnClear :: later) w = Some (tt, w')
    /\ readAll w' = map entry (stamped (clock w) ks (emitted later))
    /\ List.length (readAll w') = List.length (emitted later)
    /\ Sorted lt ks.
Proof.
  intros Hui Hlog Hlinks Hbefore Hlater Hstore.
  destruct (run_paired f before Hbefore w rs Hui Hlog Hlinks)
    as (w1 & rs1 & Hrun1 & Hlog1 & Hl1 & Hui1 & _ & Hk1).
  destruct (step_paired f (Activate OnClear) w1 rs1 (eq_trans Hui1 Hui) Hlog1 Hl1 eq_refl)
    as (w2 & rs2 & Hstep & Hlog2 & Hl2 & Hui2 & _ & Hk2).
  assert (Hempty : readAll w2 = []).
  { destruct Hlog1 as (tag & i & cls & attrs & Hc).
    change (step (Activate OnClear) w1)
      with (clearLog (setOutput (output w1 ++ [ConsoleLog "Clear chat button clicked"]) w1))
      in Hstep.
    rewrite (clearLog_run
               (setOutput (output w1 ++ [ConsoleLog "Clear chat button clicked"]) w1) _ Hc)
      in Hstep.
    injection Hstep as <-. reflexivity. }
  assert (Hrs2 : rs2 = []).
  { pose proof (readAll_logIs _ _ Hlog2) as H. rewrite Hempty in H.
    destruct rs2; [reflexivity|discriminate]. }
  subst rs2.
  assert (Hready2 : Ready w2 []) by (split; [exact Hlog2|now apply linksPaired_cleanups]).
  destruct (run_grows f later (Forall_both _ _ _ Hlater Hstore) w2 []
                      (eq_trans Hui2 (eq_trans Hui1 Hui)) Hready2)
    as (w' & ks & Hrun & (Hlog' & _) & _ & _ & _ & Hlen & Hsorted & _).
  exists w', ks. split.
  { rewrite run_app, Hrun1, run_cons, Hstep. exact Hrun. }
  simpl in Hlog'. rewrite Hk2, Hk1 in Hlog'.
  rewrite (readAll_logIs _ _ Hlog'). split; [reflexivity|].
  split; [|exact Hsorted].
  rewrite length_map. now apply stamped_length.
Qed.

Lemma clear_forgets_only_the_past_witness :
  exists w' ks,
    run ([Emit ThisUI alice (JS.Str "hi") (JS.Num 0); Activate OnDownload]
         ++ Activate OnClear :: [Emit ThisUI bob (JS.Str "hey") (JS.Num 3); Fire 0])
        samplePage = Some (tt, w')
    /\ readAll w'
       = map entry (stamped (clock samplePage) ks
                            (emitted [Emit ThisUI bob (JS.Str "hey") (JS.Num 3); Fire 0]))
    /\ List.length (readAll w')
       = List.length (emitted [Emit ThisUI bob (JS.Str "hey") (JS.Num 3); Fire 0])
    /\ Sorted lt ks.
Proof.
  apply (clear_forgets_only_the_past sampleAddChatLine _ _ samplePage []).
  - reflexivity.
  - do 4 eexists. reflexivity.
  - repeat split; constructor.
  - repeat constructor.
  - repeat constructor; discriminate.
  - repeat constructor.
Defined.
